(** * centerline.converters: the conversion pipeline

    A shallow embedding of [src/centerline/converters.py]: the driver
    resolver [get_ogr_driver] and the orchestrator [create_centerlines],
    with the OGR registry, the fiona datasets and the warning log kept in
    an explicit world that every call threads through. *)

From Stdlib Require Import Ascii.
From stdpp Require Import gmap strings list fin_maps.

Open Scope string_scope.
Open Scope list_scope.

(** ** Python strings *)

Module PyStr.

(** [sub in s] on Python strings: [sub] occurs in [s] at some offset. *)
Fixpoint contains (sub s : string) : bool :=
  String.prefix sub s ||
  match s with
  | EmptyString => false
  | String _ s' => contains sub s'
  end.

(** [s[n:]] *)
Fixpoint drop (n : nat) (s : string) : string :=
  match n, s with
  | O, _ => s
  | S _, EmptyString => EmptyString
  | S n', String _ s' => drop n' s'
  end.

(** [s[:n]] *)
Fixpoint take (n : nat) (s : string) : string :=
  match n, s with
  | O, _ => EmptyString
  | S _, EmptyString => EmptyString
  | S n', String a s' => String a (take n' s')
  end.

(** [s.rfind(c)] for a one-character [c]: the highest index, or -1. *)
Fixpoint rfind (c : ascii) (s : string) : Z :=
  match s with
  | EmptyString => (-1)%Z
  | String a s' =>
      let r := rfind c s' in
      if (0 <=? r)%Z then (r + 1)%Z
      else if bool_decide (a = c) then 0%Z else (-1)%Z
  end.

End PyStr.

(** ** os.path.splitext (posixpath)

    The standard library's [genericpath._splitext] with [sep = "/"],
    no [altsep] and [extsep = "."]: the extension runs from the last dot
    of the last path component to the end, unless that component consists
    of leading dots only up to that dot. *)

Definition sep : ascii := "/"%char.
Definition extsep : ascii := "."%char.

Definition splitext (p : string) : string * string :=
  let sepIndex := PyStr.rfind sep p in
  let dotIndex := PyStr.rfind extsep p in
  if (sepIndex <? dotIndex)%Z then
    (* skip all leading dots *)
    if existsb
         (fun filenameIndex =>
            negb (bool_decide
                    (String.get (Z.to_nat filenameIndex) p = Some extsep)))
         (seqZ (sepIndex + 1) (dotIndex - (sepIndex + 1)))
    then (PyStr.take (Z.to_nat dotIndex) p, PyStr.drop (Z.to_nat dotIndex) p)
    else (p, EmptyString)
  else (p, EmptyString).

(** The two statements that open [get_ogr_driver]:
    [filename, file_extension = os.path.splitext(filepath)] and
    [EXTENSION = file_extension[1:]]. *)
Definition EXTENSION_of (filepath : string) : string :=
  let '(filename, file_extension) := splitext filepath in
  PyStr.drop 1 file_extension.

(** [c not in s]: no position of [s] holds the character [c]. *)
Definition lacks (c : ascii) (s : string) : Prop :=
  ∀ a b, s ≠ a +:+ String c b.

(** ** Exceptions and results *)

(** An exception is its class name and its message. An [except] clause
    matches on the class name: the classes raised here are the ones named
    in the source and the built-in ones, and none of them is declared as a
    subclass of another in this module. *)
Record exn := mkExn { exn_class : string; exn_msg : string }.

Definition InvalidInputTypeError (msg : string) : exn :=
  mkExn "InvalidInputTypeError" msg.
Definition TooFewRidgesError (msg : string) : exn :=
  mkExn "TooFewRidgesError" msg.
Definition TypeError (msg : string) : exn := mkExn "TypeError" msg.
Definition AttributeError (msg : string) : exn := mkExn "AttributeError" msg.
Definition DriverError (msg : string) : exn := mkExn "DriverError" msg.

Inductive result (A : Type) : Type :=
| Ok (a : A)
| Raise (e : exn).
Arguments Ok {A} a.
Arguments Raise {A} e.

(** ** The OGR driver registry *)

(** A driver handle: its short name and its metadata items. *)
Record Driver := mkDriver {
  drv_name : string;
  drv_metadata : gmap string string
}.

Definition GetName (driver : Driver) : string := drv_name driver.

(** [driver.GetMetadataItem(key)]: [None] when the item is absent. *)
Definition GetMetadataItem (driver : Driver) (key : string) : option string :=
  drv_metadata driver !! key.

(** [x or ""] on an optional string: [None] and [""] both give [""]. *)
Definition or_empty (x : option string) : string :=
  match x with
  | Some s => s
  | None => ""
  end.

(** The test of line 117, for one driver. *)
Definition driver_matches (EXTENSION : string) (driver : Driver) : bool :=
  let driver_extension := or_empty (GetMetadataItem driver "DMD_EXTENSION") in
  let driver_extensions := or_empty (GetMetadataItem driver "DMD_EXTENSIONS") in
  bool_decide (EXTENSION = driver_extension)
  || PyStr.contains EXTENSION driver_extensions.

(** ** Datasets *)

(** A fiona record: [record.get("geometry")] and
    [record.get("properties")]. *)
Record Feature (G V : Type) := mkFeature {
  geometry : G;
  properties : gmap string V
}.
Arguments mkFeature {G V} _ _.
Arguments geometry {G V} _.
Arguments properties {G V} _.

(** A value of the schema dict: the geometry type is a string, the
    attribute definitions are an ordered mapping from name to type. *)
Inductive schema_value :=
| SStr (s : string)
| SFields (fields : list (string * string)).

(** What an opened collection exposes: driver, schema, crs, encoding and
    the records it yields or has been given, in order. *)
Record Dataset (G V C : Type) := mkDataset {
  ds_driver : string;
  ds_schema : gmap string schema_value;
  ds_crs : C;
  ds_encoding : string;
  ds_records : list (Feature G V)
}.
Arguments mkDataset {G V C} _ _ _ _ _.
Arguments ds_driver {G V C} _.
Arguments ds_schema {G V C} _.
Arguments ds_crs {G V C} _.
Arguments ds_encoding {G V C} _.
Arguments ds_records {G V C} _.

(** ** External collaborators

    [shapely.geometry.shape] and [mapping], the [Centerline] constructor
    of [centerline.geometry] with the [__dict__] of the object it builds,
    and the two ways fiona can refuse the destination: at [open] and at
    [write]. A refusal at [write] is the check of the record against the
    schema: it is decided by the two, not by what the file holds. *)
Class Collaborators := {
  Geometry : Type;
  Shape : Type;
  Density : Type;
  Value : Type;
  Crs : Type;
  CenterlineObj : Type;
  shape : Geometry → result Shape;
  Centerline : Shape → Density → gmap string Value → result CenterlineObj;
  obj_dict : CenterlineObj → gmap string Value;
  mapping : CenterlineObj → result Geometry;
  fiona_open_w_error : string → string → option exn;
  fiona_write_error :
    gmap string schema_value → Feature Geometry Value → option exn
}.

Section Pipeline.
Context `{Collaborators}.

Abbreviation record := (Feature Geometry Value).
Abbreviation dataset := (Dataset Geometry Value Crs).

(** Calls that reach the I/O layer, in the order they are issued. *)
Inductive io_event :=
| EvOpenR (path : string)
| EvOpenW (path driver : string) (schema : gmap string schema_value)
          (crs : Crs) (encoding : string)
| EvWrite (path : string) (rec : record)
| EvClose (path : string).

(** Everything the module reads or changes outside its own locals. *)
Record World := mkWorld {
  ogr_drivers : list Driver;
  files : gmap string dataset;
  warnings : list exn;
  io_log : list io_event
}.

Definition set_files (f : gmap string dataset → gmap string dataset)
    (w : World) : World :=
  mkWorld (ogr_drivers w) (f (files w)) (warnings w) (io_log w).
Definition add_warning (e : exn) (w : World) : World :=
  mkWorld (ogr_drivers w) (files w) (warnings w ++ [e]) (io_log w).
Definition add_event (ev : io_event) (w : World) : World :=
  mkWorld (ogr_drivers w) (files w) (warnings w) (io_log w ++ [ev]).

(** *** State and exceptions *)

Definition M (A : Type) : Type := World → World * result A.

#[export] Instance M_ret : MRet M := λ A a w, (w, Ok a).
#[export] Instance M_bind : MBind M := λ A B k m w,
  match m w with
  | (w', Ok a) => k a w'
  | (w', Raise e) => (w', Raise e)
  end.

Definition raise {A} (e : exn) : M A := λ w, (w, Raise e).
Definition lift {A} (r : result A) : M A := λ w, (w, r).
Definition gets {A} (f : World → A) : M A := λ w, (w, Ok (f w)).
Definition modify (f : World → World) : M unit := λ w, (f w, Ok tt).

(** [try: m except (classes) as error: handler(error)] *)
Definition try_except {A} (m : M A) (classes : list string)
    (handler : exn → M A) : M A := λ w,
  match m w with
  | (w', Ok a) => (w', Ok a)
  | (w', Raise e) =>
      if bool_decide (exn_class e ∈ classes) then handler e w'
      else (w', Raise e)
  end.

(** [with acquire as x: body]: the handle is closed on every exit and
    the exception, if any, goes on. *)
Definition with_ {A B} (acquire : M A) (close : A → M unit)
    (body : A → M B) : M B := λ w,
  match acquire w with
  | (w1, Raise e) => (w1, Raise e)
  | (w1, Ok x) =>
      let '(w2, r) := body x w1 in
      (fst (close x w2), r)
  end.

(** [for x in xs: body(x)]; [continue] is a body that returns. *)
Fixpoint for_each {A} (xs : list A) (body : A → M unit) : M unit :=
  match xs with
  | [] => mret tt
  | x :: xs' => body x ;; for_each xs' body
  end.

(** *** osgeo.ogr *)

Definition GetDriverCount : M nat := gets (λ w, length (ogr_drivers w)).
Definition GetDriver (idx : nat) : M (option Driver) :=
  gets (λ w, ogr_drivers w !! idx).

(** *** fiona *)

(** A collection opened for reading: what it was opened on. *)
Definition fiona_open_r (path : string) : M dataset := λ w,
  let w' := add_event (EvOpenR path) w in
  match files w !! path with
  | Some ds => (w', Ok ds)
  | None => (w', Raise (DriverError path))
  end.

(** A collection opened for writing: the handle keeps path and schema;
    the file is created empty. *)
Definition fiona_open_w (path driver : string)
    (schema : gmap string schema_value) (crs : Crs) (encoding : string)
    : M (string * gmap string schema_value) := λ w,
  let w' := add_event (EvOpenW path driver schema crs encoding) w in
  match fiona_open_w_error path driver with
  | Some e => (w', Raise e)
  | None =>
      (set_files (insert path (mkDataset driver schema crs encoding [])) w',
       Ok (path, schema))
  end.

Definition append_record (rec : record) (ds : dataset) : dataset :=
  mkDataset (ds_driver ds) (ds_schema ds) (ds_crs ds) (ds_encoding ds)
            (ds_records ds ++ [rec]).

Definition fiona_write (c : string * gmap string schema_value)
    (rec : record) : M unit := λ w,
  let w' := add_event (EvWrite c.1 rec) w in
  match fiona_write_error c.2 rec with
  | Some e => (w', Raise e)
  | None => (set_files (alter (append_record rec) c.1) w', Ok tt)
  end.

Definition fiona_close (path : string) : M unit :=
  modify (add_event (EvClose path)).

(** *** logging *)

Definition logging_warning (error : exn) : M unit :=
  modify (add_warning error).

(** *** get_ogr_driver *)

Definition no_driver_msg (EXTENSION : string) : string :=
  "No driver found for the following file extension: " +:+ EXTENSION.

(** The [for idx in range(ogr_driver_count)] loop with its [else]. *)
Fixpoint driver_loop (EXTENSION : string) (idxs : list nat) : M Driver :=
  match idxs with
  | [] => raise (InvalidInputTypeError (no_driver_msg EXTENSION))
  | idx :: idxs' =>
      driver ← GetDriver idx;
      match driver with
      | None =>
          raise (AttributeError
                   "'NoneType' object has no attribute 'GetMetadataItem'")
      | Some driver =>
          if driver_matches EXTENSION driver then mret driver
          else driver_loop EXTENSION idxs'
      end
  end.

Definition get_ogr_driver (filepath : string) : M Driver :=
  let EXTENSION := EXTENSION_of filepath in
  ogr_driver_count ← GetDriverCount;
  driver_loop EXTENSION (seq 0 ogr_driver_count).

(** *** create_centerlines *)

(** [Centerline(input_geom=input_geom, interpolation_dist=density,
    **attributes)]: the interpreter refuses a keyword given twice before
    the constructor runs. *)
Definition call_Centerline (input_geom : Shape) (density : Density)
    (attributes : gmap string Value) : result CenterlineObj :=
  if bool_decide (is_Some (attributes !! "input_geom")) then
    Raise (TypeError
             "Centerline() got multiple values for keyword argument 'input_geom'")
  else if bool_decide (is_Some (attributes !! "interpolation_dist")) then
    Raise (TypeError
             "Centerline() got multiple values for keyword argument 'interpolation_dist'")
  else Centerline input_geom density attributes.

(** [{k: v for k, v in centerline_obj.__dict__.items()
      if k in attributes.keys()}] *)
Definition kept_properties (centerline_obj : CenterlineObj)
    (attributes : gmap string Value) : gmap string Value :=
  filter (λ kv, is_Some (attributes !! kv.1)) (obj_dict centerline_obj).

Definition caught : list string :=
  ["InvalidInputTypeError"; "TooFewRidgesError"].

(** The body of [for record in source_file]. *)
Definition process_record
    (destination_file : string * gmap string schema_value)
    (density : Density) (rec : record) : M unit :=
  let geom := geometry rec in
  input_geom ← lift (shape geom);
  let attributes := properties rec in
  centerline_obj ←
    try_except
      (obj ← lift (call_Centerline input_geom density attributes);
       mret (Some obj))
      caught
      (λ error, logging_warning error ;; mret None);
  match centerline_obj with
  | None => mret tt
  | Some centerline_obj =>
      geom' ← lift (mapping centerline_obj);
      let centerline_dict :=
        mkFeature geom' (kept_properties centerline_obj attributes) in
      fiona_write destination_file centerline_dict
  end.

Definition create_centerlines (src dst : string) (density : Density)
    : M unit :=
  with_ (fiona_open_r src) (λ _, fiona_close src) (λ source_file,
    let schema :=
      <["geometry" := SStr "MultiLineString"]> (ds_schema source_file) in
    driver ← get_ogr_driver dst;
    with_ (fiona_open_w dst (GetName driver) schema
             (ds_crs source_file) (ds_encoding source_file))
          (λ _, fiona_close dst)
          (λ destination_file,
             for_each (ds_records source_file)
                      (process_record destination_file density))).

(** *** What the run is expected to leave behind *)

Definition append_records (outs : list record) (ds : dataset) : dataset :=
  mkDataset (ds_driver ds) (ds_schema ds) (ds_crs ds) (ds_encoding ds)
            (ds_records ds ++ outs).

(** The output record of a feature: the encoded geometry of its
    centerline with the result attributes whose names the feature already
    had; none when the geometry cannot be decoded, the constructor raises
    or the centerline cannot be encoded. *)
Definition converted (density : Density) (rec : record) : option record :=
  match shape (geometry rec) with
  | Raise _ => None
  | Ok input_geom =>
      match call_Centerline input_geom density (properties rec) with
      | Raise _ => None
      | Ok centerline_obj =>
          match mapping centerline_obj with
          | Raise _ => None
          | Ok geom' =>
              Some (mkFeature geom'
                      (kept_properties centerline_obj (properties rec)))
          end
      end
  end.

(** The exception a feature is skipped with: the one the constructor
    call raises, when its class is one of the two caught; none when the
    feature is converted or makes the run stop. *)
Definition skipped (density : Density) (rec : record) : option exn :=
  match shape (geometry rec) with
  | Raise _ => None
  | Ok input_geom =>
      match call_Centerline input_geom density (properties rec) with
      | Ok _ => None
      | Raise e => if bool_decide (exn_class e ∈ caught) then Some e else None
      end
  end.

(** The driver the resolver is expected to return: the first match in
    enumeration order. *)
Definition resolved (EXTENSION : string) (drivers : list Driver)
    : result Driver :=
  match list_find (λ d, driver_matches EXTENSION d = true) drivers with
  | Some (_, driver) => Ok driver
  | None => Raise (InvalidInputTypeError (no_driver_msg EXTENSION))
  end.

(** The world in which the loop starts: the source opened on [ds], the
    destination opened with [driver] and created empty. *)
Definition opened (src dst : string) (driver : Driver) (ds : dataset)
    (w : World) : World :=
  let schema := <["geometry" := SStr "MultiLineString"]> (ds_schema ds) in
  set_files
    (insert dst
       (mkDataset (GetName driver) schema (ds_crs ds) (ds_encoding ds) []))
    (add_event
       (EvOpenW dst (GetName driver) schema (ds_crs ds) (ds_encoding ds))
       (add_event (EvOpenR src) w)).

Definition is_open_w (ev : io_event) : bool :=
  match ev with
  | EvOpenW _ _ _ _ _ => true
  | _ => false
  end.

Definition is_write_to (path : string) (ev : io_event) : Prop :=
  ∃ out, ev = EvWrite path out.

End Pipeline.

(** ** A concrete instance

    Geometries are named by their type; the constructor accepts
    ["Polygon"] and ["MultiPolygon"], rejects a polygon called ["Sliver"]
    for having too few ridges and everything else for its type, and
    republishes the attributes it was given next to two of its own. *)

Module Sample.

Definition sample_Centerline (input_geom : string) (density : Z)
    (attributes : gmap string Z) : result (string * gmap string Z) :=
  if bool_decide (input_geom ∈ ["Polygon"; "MultiPolygon"]) then
    Ok ("MultiLineString",
        <["_interpolation_distance" := density]>
          (<["_min_x" := 0%Z]> attributes))
  else if bool_decide (input_geom = "Sliver") then
    Raise (TooFewRidgesError "Number of produced ridges is too small")
  else
    Raise (InvalidInputTypeError "Input geometry must be a polygon").

#[export] Instance sample_collaborators : Collaborators := {|
  Geometry := string;
  Shape := string;
  Density := Z;
  Value := Z;
  Crs := string;
  CenterlineObj := string * gmap string Z;
  shape := λ geom,
    if bool_decide (geom = "") then
      Raise (AttributeError "'NoneType' object has no attribute 'get'")
    else Ok geom;
  Centerline := sample_Centerline;
  obj_dict := snd;
  mapping := λ obj, Ok (fst obj);
  fiona_open_w_error := λ _ _, None;
  fiona_write_error := λ _ _, None
|}.

Definition pcidsk : Driver :=
  mkDriver "PCIDSK" {[ "DMD_EXTENSION" := "pix" ]}.
Definition shapefile : Driver :=
  mkDriver "ESRI Shapefile"
    {[ "DMD_EXTENSION" := "shp"; "DMD_EXTENSIONS" := "shp dbf shz shp.zip" ]}.
Definition geojson : Driver :=
  mkDriver "GeoJSON"
    {[ "DMD_EXTENSION" := "json"; "DMD_EXTENSIONS" := "json geojson" ]}.

Definition drivers : list Driver :=
  [ pcidsk; shapefile; geojson; mkDriver "Memory" ∅ ].

Definition source_schema : gmap string schema_value :=
  {[ "geometry" := SStr "Polygon";
     "properties" := SFields [("id", "int"); ("name", "str")] ]}.

Definition polygon : Feature string Z :=
  mkFeature "Polygon" {[ "id" := 1%Z; "name" := 10%Z ]}.
Definition sliver : Feature string Z :=
  mkFeature "Sliver" {[ "id" := 2%Z; "name" := 20%Z ]}.
Definition point : Feature string Z :=
  mkFeature "Point" {[ "id" := 3%Z; "name" := 30%Z ]}.
Definition multipolygon : Feature string Z :=
  mkFeature "MultiPolygon" {[ "id" := 4%Z; "name" := 40%Z ]}.

(** A polygon with an attribute named like a parameter of the
    constructor. *)
Definition clash : Feature string Z :=
  mkFeature "Polygon" {[ "id" := 5%Z; "interpolation_dist" := 2%Z ]}.

Definition source : Dataset string Z string :=
  mkDataset "ESRI Shapefile" source_schema "EPSG:4326" "utf-8"
    [polygon; sliver; point; multipolygon].

Definition clash_source : Dataset string Z string :=
  mkDataset "ESRI Shapefile" source_schema "EPSG:4326" "utf-8"
    [polygon; clash; multipolygon].

Definition world : World :=
  mkWorld drivers {[ "in.shp" := source; "clash.shp" := clash_source ]} [] [].

(** The same registry seen later: other files, a warning, an I/O call. *)
Definition later_world : World :=
  mkWorld drivers ∅ [TooFewRidgesError "Number of produced ridges is too small"]
    [EvOpenR "in.shp"].

Definition no_drivers : World := mkWorld [] {[ "in.shp" := source ]} [] [].

Definition derived_schema : gmap string schema_value :=
  {[ "geometry" := SStr "MultiLineString";
     "properties" := SFields [("id", "int"); ("name", "str")] ]}.

Definition destination : string * gmap string schema_value :=
  ("out.geojson", derived_schema).

Definition out_polygon : Feature string Z :=
  mkFeature "MultiLineString" {[ "id" := 1%Z; "name" := 10%Z ]}.
Definition out_multipolygon : Feature string Z :=
  mkFeature "MultiLineString" {[ "id" := 4%Z; "name" := 40%Z ]}.

(** A feature without a geometry: decoding it raises. *)
Definition null_feature : Feature string Z :=
  mkFeature "" {[ "id" := 6%Z; "name" := 60%Z ]}.

Definition null_source : Dataset string Z string :=
  mkDataset "ESRI Shapefile" source_schema "EPSG:4326" "utf-8"
    [polygon; sliver; null_feature; multipolygon].

Definition empty_source : Dataset string Z string :=
  mkDataset "ESRI Shapefile" source_schema "EPSG:3857" "latin-1" [].

(** A source that is already a file of centerlines. *)
Definition lines_source : Dataset string Z string :=
  mkDataset "GeoJSON" derived_schema "EPSG:4326" "utf-8" [point].

Definition other_world : World :=
  mkWorld drivers
    {[ "null.shp" := null_source; "empty.shp" := empty_source;
       "lines.json" := lines_source ]} [] [].

Definition gpkg : Driver :=
  mkDriver "GPKG" {[ "DMD_EXTENSION" := "gpkg" ]}.

Definition grown_world : World :=
  mkWorld (drivers ++ [gpkg]) ∅ [] [].

Definition shifted_world : World :=
  mkWorld ([gpkg] ++ drivers) ∅ [] [].

End Sample.

(** * Properties *)

(** ** Strings *)

Lemma app_cons (a : ascii) (s t : string) :
  String a s +:+ t = String a (s +:+ t).
Proof. reflexivity. Qed.

Lemma app_empty (t : string) : "" +:+ t = t.
Proof. reflexivity. Qed.

Lemma prefix_spec (sub s : string) :
  String.prefix sub s = true ↔ ∃ post, s = sub +:+ post.
Proof.
  revert s. induction sub as [|a sub IH]; intros s.
  - split; [intros _; by exists s | by destruct s].
  - destruct s as [|b s]; cbn.
    + split; [done | intros [post Hp]; discriminate].
    + setoid_rewrite app_cons.
      destruct (Ascii.ascii_dec a b) as [->|Hne].
      * rewrite IH. split; intros [post Hp]; exists post; congruence.
      * split; [done | intros [post Hp]; congruence].
Qed.

Lemma contains_empty (s : string) : PyStr.contains "" s = true.
Proof. by destruct s. Qed.

Lemma contains_spec (sub s : string) :
  PyStr.contains sub s = true ↔ ∃ pre post, s = pre +:+ sub +:+ post.
Proof.
  induction s as [|b s IH]; cbn [PyStr.contains].
  - rewrite orb_false_r, prefix_spec. split.
    + intros [post Hp]. by exists "", post.
    + intros [pre [post Hp]]. destruct pre; [by exists post | discriminate].
  - rewrite orb_true_iff, prefix_spec, IH. split.
    + intros [[post Hp]|[pre [post Hp]]].
      * by exists "", post.
      * exists (String b pre), post. by rewrite app_cons, Hp.
    + intros [pre [post Hp]]. destruct pre as [|c pre].
      * left. by exists post.
      * right. exists pre, post. rewrite app_cons in Hp. congruence.
Qed.

(** ** Extensions *)

Example splitext_plain :
  splitext "a/b.c/out.geojson" = ("a/b.c/out", ".geojson").
Proof. reflexivity. Qed.

Example splitext_dot_in_directory : splitext "a/b.c/out" = ("a/b.c/out", "").
Proof. reflexivity. Qed.

Example splitext_leading_dots : splitext "d/...." = ("d/....", "").
Proof. reflexivity. Qed.

Example splitext_hidden_file : splitext ".bashrc" = (".bashrc", "").
Proof. reflexivity. Qed.

Example EXTENSION_of_last_suffix : EXTENSION_of "out.tar.gz" = "gz".
Proof. reflexivity. Qed.

Example contains_inside_token : PyStr.contains "hp.z" "shp dbf shz shp.zip" = true.
Proof. reflexivity. Qed.

Example contains_across_tokens : PyStr.contains "p d" "shp dbf" = true.
Proof. reflexivity. Qed.

Example contains_case_sensitive : PyStr.contains "SHP" "shp dbf" = false.
Proof. reflexivity. Qed.

Lemma rfind_lower_bound (c : ascii) (s : string) : (-1 ≤ PyStr.rfind c s)%Z.
Proof.
  induction s as [|a s IH]; cbn [PyStr.rfind]; [done|].
  destruct (0 <=? PyStr.rfind c s)%Z eqn:Hr; [lia|].
  by case_bool_decide.
Qed.

Lemma rfind_last (c : ascii) (q : string) :
  PyStr.rfind c (q +:+ String c "") = Z.of_nat (String.length q).
Proof.
  induction q as [|a q IH].
  - rewrite app_empty. cbn [PyStr.rfind String.length].
    by rewrite bool_decide_eq_true_2.
  - rewrite app_cons. cbn [PyStr.rfind String.length]. rewrite IH.
    destruct (0 <=? Z.of_nat (String.length q))%Z eqn:Hr; lia.
Qed.

Lemma drop_length_app (q s : string) :
  PyStr.drop (String.length q) (q +:+ s) = s.
Proof. induction q as [|a q IH]; [by destruct s | by rewrite app_cons]. Qed.

(** A path without a dot has an empty extension. *)
Lemma EXTENSION_of_no_dot (p : string) :
  PyStr.rfind extsep p = (-1)%Z → EXTENSION_of p = "".
Proof.
  intros Hdot. unfold EXTENSION_of, splitext. rewrite Hdot.
  pose proof (rfind_lower_bound sep p).
  by destruct (PyStr.rfind sep p <? -1)%Z eqn:Hlt; [lia|].
Qed.

(** A path that ends in a bare dot has an empty extension. *)
Lemma EXTENSION_of_trailing_dot (q : string) : EXTENSION_of (q +:+ ".") = "".
Proof.
  unfold EXTENSION_of, splitext.
  pose proof (rfind_last extsep q) as Hdot. unfold extsep in Hdot at 2.
  rewrite !Hdot.
  destruct (_ <? _)%Z; [|done].
  destruct (existsb _ _); [|done].
  by rewrite Nat2Z.id, drop_length_app.
Qed.

(** ** The driver resolver *)

Section ResolverProofs.
Context `{Collaborators}.

Lemma driver_loop_seq (EXTENSION : string) (w : World) (l pre : list Driver) :
  ogr_drivers w = pre ++ l →
  driver_loop EXTENSION (seq (length pre) (length l)) w
  = (w, resolved EXTENSION l).
Proof.
  revert pre. induction l as [|d l IH]; intros pre Hw; [done|].
  cbn [length seq driver_loop].
  unfold mbind, M_bind, GetDriver, gets. rewrite Hw.
  rewrite list_lookup_middle by done.
  unfold resolved. cbn [list_find].
  destruct (driver_matches EXTENSION d) eqn:Hd.
  - by rewrite decide_True.
  - rewrite decide_False by congruence.
    specialize (IH (pre ++ [d])). rewrite length_app in IH. simpl in IH.
    rewrite Nat.add_1_r in IH.
    rewrite IH by (by rewrite <- app_assoc).
    unfold resolved. by destruct (list_find _ l) as [[??]|].
Qed.

Lemma get_ogr_driver_resolved (filepath : string) (w : World) :
  get_ogr_driver filepath w
  = (w, resolved (EXTENSION_of filepath) (ogr_drivers w)).
Proof.
  unfold get_ogr_driver, mbind, M_bind, GetDriverCount, gets.
  by apply (driver_loop_seq _ w (ogr_drivers w) []).
Qed.

Lemma driver_matches_spec (EXTENSION : string) (driver : Driver) :
  driver_matches EXTENSION driver = true ↔
  EXTENSION = default "" (drv_metadata driver !! "DMD_EXTENSION")
  ∨ ∃ pre post,
      default "" (drv_metadata driver !! "DMD_EXTENSIONS")
      = pre +:+ EXTENSION +:+ post.
Proof.
  unfold driver_matches, GetMetadataItem, or_empty.
  rewrite orb_true_iff, bool_decide_eq_true, contains_spec.
  by destruct (drv_metadata driver !! "DMD_EXTENSION"),
              (drv_metadata driver !! "DMD_EXTENSIONS").
Qed.

Lemma resolved_Ok (EXTENSION : string) (drivers : list Driver)
    (driver : Driver) :
  resolved EXTENSION drivers = Ok driver ↔
  ∃ idx, drivers !! idx = Some driver
         ∧ driver_matches EXTENSION driver = true
         ∧ ∀ j d, drivers !! j = Some d → j < idx →
                  driver_matches EXTENSION d = false.
Proof.
  unfold resolved.
  destruct (list_find _ drivers) as [[i x]|] eqn:Hf.
  - apply list_find_Some in Hf as (Hi & Hx & Hmin). split.
    + intros [= <-]. exists i. split_and!; [done..|].
      intros j d Hj Hlt. specialize (Hmin j d Hj Hlt).
      by destruct (driver_matches EXTENSION d).
    + intros (idx & Hidx & Hm & Hfirst).
      destruct (Nat.lt_trichotomy i idx) as [Hlt|[->|Hgt]].
      * specialize (Hfirst i x Hi Hlt). congruence.
      * congruence.
      * by destruct (Hmin idx driver Hidx Hgt).
  - split; [done|]. intros (idx & Hidx & Hm & _).
    rewrite list_find_None, Forall_forall in Hf.
    destruct (Hf driver); [|done]. eapply list_elem_of_lookup_2, Hidx.
Qed.

Lemma resolved_Raise (EXTENSION : string) (drivers : list Driver) :
  (∀ d, d ∈ drivers → driver_matches EXTENSION d = false) →
  resolved EXTENSION drivers
  = Raise (InvalidInputTypeError (no_driver_msg EXTENSION)).
Proof.
  intros Hno. unfold resolved.
  destruct (list_find _ drivers) as [[i x]|] eqn:Hf; [|done].
  apply list_find_Some in Hf as (Hi & Hx & _).
  apply list_elem_of_lookup_2, Hno in Hi. congruence.
Qed.

(** C8. The resolver does not change the world, and its result depends
    on the path and on the drivers of the registry only: a second call,
    in the world the first one left or in any world with the same
    registry, returns what the first one returned. *)
Theorem get_ogr_driver_deterministic (filepath : string) (w w' : World) :
  ogr_drivers w' = ogr_drivers w →
  (get_ogr_driver filepath w).1 = w
  ∧ (get_ogr_driver filepath w').1 = w'
  ∧ (get_ogr_driver filepath w').2 = (get_ogr_driver filepath w).2
  ∧ get_ogr_driver filepath (get_ogr_driver filepath w).1
    = get_ogr_driver filepath w.
Proof.
  intros Hreg. rewrite !get_ogr_driver_resolved. cbn.
  by rewrite Hreg.
Qed.

(** C9, as amended. When the extension of the path is empty and the
    registry has at least one driver, the resolver returns the driver of
    index 0 and does not raise. *)
Theorem get_ogr_driver_empty_extension (filepath : string) (w : World)
    (driver : Driver) :
  EXTENSION_of filepath = "" →
  ogr_drivers w !! 0 = Some driver →
  get_ogr_driver filepath w = (w, Ok driver).
Proof.
  intros Hext H0. rewrite get_ogr_driver_resolved. f_equal.
  apply resolved_Ok. exists 0. split_and!; [done| |lia].
  apply driver_matches_spec. right. rewrite Hext.
  by exists "", (default "" (drv_metadata driver !! "DMD_EXTENSIONS")).
Qed.

End ResolverProofs.

(** ** The orchestrator *)

(** Runs [process_record] as far as the outcomes of the collaborators,
    taken from the hypotheses, determine it. *)
Ltac run_process_record :=
  unfold process_record, try_except;
  repeat (unfold mbind, M_bind, mret, M_ret, lift;
          match goal with
          | Heq : ?c = _ |- context [?c] => rewrite Heq
          end).

Section OrchestratorProofs.
Context `{Collaborators}.

Implicit Types (w : World) (rec : Feature Geometry Value).
Implicit Types (dest : string * gmap string schema_value).

Lemma world_eq w drivers fs ws evs :
  ogr_drivers w = drivers → files w = fs → warnings w = ws →
  io_log w = evs → w = mkWorld drivers fs ws evs.
Proof. destruct w; simpl; congruence. Qed.

Lemma append_records_nil (ds : Dataset Geometry Value Crs) :
  append_records [] ds = ds.
Proof. destruct ds; unfold append_records; simpl. by rewrite app_nil_r. Qed.

Lemma append_records_app (outs1 outs2 : list (Feature Geometry Value))
    (ds : Dataset Geometry Value Crs) :
  append_records outs2 (append_records outs1 ds)
  = append_records (outs1 ++ outs2) ds.
Proof. unfold append_records; simpl. by rewrite app_assoc. Qed.

(** *** One feature *)

Lemma process_record_shape_raise dest density rec w e :
  shape (geometry rec) = Raise e →
  process_record dest density rec w = (w, Raise e).
Proof. intros Hs. by run_process_record. Qed.

Lemma process_record_caught dest density rec w input_geom e :
  shape (geometry rec) = Ok input_geom →
  call_Centerline input_geom density (properties rec) = Raise e →
  exn_class e ∈ caught →
  process_record dest density rec w = (add_warning e w, Ok tt).
Proof.
  intros Hs Hc Hin. run_process_record. by rewrite bool_decide_eq_true_2.
Qed.

Lemma process_record_uncaught dest density rec w input_geom e :
  shape (geometry rec) = Ok input_geom →
  call_Centerline input_geom density (properties rec) = Raise e →
  exn_class e ∉ caught →
  process_record dest density rec w = (w, Raise e).
Proof.
  intros Hs Hc Hin. run_process_record. by rewrite bool_decide_eq_false_2.
Qed.

Lemma process_record_mapping_raise dest density rec w input_geom obj e :
  shape (geometry rec) = Ok input_geom →
  call_Centerline input_geom density (properties rec) = Ok obj →
  mapping obj = Raise e →
  process_record dest density rec w = (w, Raise e).
Proof. intros Hs Hc Hm. by run_process_record. Qed.

Lemma process_record_write dest density rec w input_geom obj geom' :
  shape (geometry rec) = Ok input_geom →
  call_Centerline input_geom density (properties rec) = Ok obj →
  mapping obj = Ok geom' →
  process_record dest density rec w
  = fiona_write dest
      (mkFeature geom' (kept_properties obj (properties rec))) w.
Proof. intros Hs Hc Hm. by run_process_record. Qed.

(** *** The loop *)

(** What a run of the loop over [recs] from [w] can leave: the first [n]
    features were dealt with, their output records were appended to the
    destination in that order, and nothing but writes to the destination
    and caught warnings happened. *)
Lemma for_each_process_record dest density
    (recs : list (Feature Geometry Value)) w w' r :
  for_each recs (process_record dest density) w = (w', r) →
  ∃ (n : nat) ws evs,
    (n ≤ length recs)%nat
    ∧ (r = Ok tt → n = length recs)
    ∧ w' = mkWorld (ogr_drivers w)
             (alter (append_records (omap (converted density) (take n recs)))
                    dest.1 (files w))
             (warnings w ++ ws) (io_log w ++ evs)
    ∧ Forall (is_write_to dest.1) evs
    ∧ Forall (λ e, exn_class e ∈ caught) ws.
Proof.
  revert w. induction recs as [|rec recs IH]; intros w Hrun.
  { injection Hrun as <- <-. exists 0, [], []. split_and!; try done.
    apply world_eq; rewrite ?app_nil_r; try done. simpl.
    symmetry. apply alter_id. intros ? _. apply append_records_nil. }
  cbn [for_each] in Hrun. unfold mbind, M_bind in Hrun.
  assert (Hstop : ∀ e ev', process_record dest density rec w
                    = (mkWorld (ogr_drivers w) (files w) (warnings w)
                         (io_log w ++ ev'), Raise e) →
                  Forall (is_write_to dest.1) ev' →
                  ∃ (n : nat) ws evs,
                    (n ≤ length (rec :: recs))%nat
                    ∧ (r = Ok tt → n = length (rec :: recs))
                    ∧ w' = mkWorld (ogr_drivers w)
                             (alter (append_records
                                       (omap (converted density)
                                             (take n (rec :: recs))))
                                    dest.1 (files w))
                             (warnings w ++ ws) (io_log w ++ evs)
                    ∧ Forall (is_write_to dest.1) evs
                    ∧ Forall (λ e, exn_class e ∈ caught) ws).
  { intros e ev' Hstep Hev'. rewrite Hstep in Hrun. injection Hrun as <- <-.
    exists 0, [], ev'. split_and!; [simpl; lia|done| |done|done].
    rewrite app_nil_r. f_equal. simpl.
    symmetry. apply alter_id. intros ? _. apply append_records_nil. }
  assert (Hsame : w = mkWorld (ogr_drivers w) (files w) (warnings w)
                        (io_log w ++ [])).
  { rewrite app_nil_r. by destruct w. }
  destruct (shape (geometry rec)) as [input_geom|e] eqn:Hs.
  2:{ apply (Hstop e []); [|done].
      rewrite <- Hsame. by apply process_record_shape_raise. }
  destruct (call_Centerline input_geom density (properties rec))
    as [obj|e] eqn:Hc.
  2:{ destruct (decide (exn_class e ∈ caught)) as [Hin|Hin].
      2:{ apply (Hstop e []); [|done].
          rewrite <- Hsame. by eapply process_record_uncaught. }
      rewrite (process_record_caught _ _ _ _ _ _ Hs Hc Hin) in Hrun.
      apply IH in Hrun as (n & ws & evs & Hn & Hall & -> & Hevs & Hws).
      exists (S n), (e :: ws), evs.
      split_and!; [simpl; lia|simpl; auto| |done|by constructor].
      assert (converted density rec = None) as Hconv
        by (unfold converted; by rewrite Hs, Hc).
      cbn [take omap list_omap]. rewrite Hconv.
      simpl. by rewrite <- app_assoc. }
  destruct (mapping obj) as [geom'|e] eqn:Hm.
  2:{ apply (Hstop e []); [|done].
      rewrite <- Hsame. by eapply process_record_mapping_raise. }
  rewrite (process_record_write _ _ _ _ _ _ _ Hs Hc Hm) in Hrun.
  set (out := mkFeature geom' (kept_properties obj (properties rec))) in *.
  unfold fiona_write in Hrun.
  destruct (fiona_write_error dest.2 out) as [e|] eqn:Hwr.
  { apply (Hstop e [EvWrite dest.1 out]).
    - rewrite (process_record_write _ _ _ _ _ _ _ Hs Hc Hm).
      unfold fiona_write. fold out. by rewrite Hwr.
    - repeat constructor. by exists out. }
  apply IH in Hrun as (n & ws & evs & Hn & Hall & -> & Hevs & Hws).
  exists (S n), ws, (EvWrite dest.1 out :: evs).
  split_and!; [simpl; lia|simpl; auto| | |done].
  - assert (converted density rec = Some out) as Hconv
      by (unfold converted; by rewrite Hs, Hc, Hm).
    cbn [take omap list_omap]. rewrite Hconv.
    simpl. rewrite <- app_assoc. f_equal.
    rewrite alter_alter_eq. apply alter_ext. intros ds _. simpl.
    apply (append_records_app [out]).
  - constructor; [by exists out | done].
Qed.

Lemma for_each_app {A} (xs ys : list A) (body : A → M unit) w :
  for_each (xs ++ ys) body w
  = match for_each xs body w with
    | (w1, Ok _) => for_each ys body w1
    | (w1, Raise e) => (w1, Raise e)
    end.
Proof.
  revert w. induction xs as [|x xs IH]; intros w; [done|].
  cbn [app for_each]. unfold mbind, M_bind.
  destruct (body x w) as [w1 [[]|e]]; [apply IH | done].
Qed.

(** *** The whole run *)

Lemma create_centerlines_run src dst density w ds driver :
  files w !! src = Some ds →
  get_ogr_driver dst w = (w, Ok driver) →
  fiona_open_w_error dst (GetName driver) = None →
  create_centerlines src dst density w
  = let schema :=
      <["geometry" := SStr "MultiLineString"]> (ds_schema ds) in
    let '(w2, r) :=
      for_each (ds_records ds) (process_record (dst, schema) density)
               (opened src dst driver ds w) in
    (add_event (EvClose src) (add_event (EvClose dst) w2), r).
Proof.
  intros Hsrc Hdrv Hopen.
  rewrite get_ogr_driver_resolved in Hdrv. injection Hdrv as Hdrv.
  unfold create_centerlines, with_ at 1, fiona_open_r. rewrite Hsrc.
  unfold mbind, M_bind. rewrite get_ogr_driver_resolved.
  cbn [ogr_drivers add_event]. rewrite Hdrv.
  unfold with_, fiona_open_w. rewrite Hopen. fold (opened src dst driver ds w).
  by destruct (for_each _ _ _) as [w2 r].
Qed.

(** C1. What the code does where the claim has [UnsupportedFormatError]:
    when no driver of the registry matches the extension of the
    destination path, the resolver raises [InvalidInputTypeError], the
    class of the per-feature errors, with a message that ends in the
    rejected extension. The rest is as the claim has it: a run on such a
    destination changes no file and issues no call on the destination,
    and once the source has been opened it ends with that exception. *)
Theorem unmatched_extension_aborts_before_writing src dst density w :
  (∀ d, d ∈ ogr_drivers w → driver_matches (EXTENSION_of dst) d = false) →
  let e := mkExn "InvalidInputTypeError"
             ("No driver found for the following file extension: "
              +:+ EXTENSION_of dst) in
  get_ogr_driver dst w = (w, Raise e)
  ∧ files (create_centerlines src dst density w).1 = files w
  ∧ io_log (create_centerlines src dst density w).1
    = io_log w ++ EvOpenR src
        :: match files w !! src with
           | Some _ => [EvClose src]
           | None => []
           end
  ∧ (is_Some (files w !! src) →
     (create_centerlines src dst density w).2 = Raise e).
Proof.
  intros Hno e.
  assert (Hres : ∀ w0, ogr_drivers w0 = ogr_drivers w →
                       get_ogr_driver dst w0 = (w0, Raise e)).
  { intros w0 Hw0. rewrite get_ogr_driver_resolved, Hw0.
    by rewrite resolved_Raise. }
  split; [by apply Hres|].
  destruct (files w !! src) as [ds|] eqn:Hsrc.
  - assert (create_centerlines src dst density w
            = (add_event (EvClose src) (add_event (EvOpenR src) w), Raise e))
      as ->.
    { unfold create_centerlines, with_ at 1, fiona_open_r. rewrite Hsrc.
      unfold mbind, M_bind. by rewrite Hres. }
    cbn. rewrite <- app_assoc. split_and!; done.
  - assert (create_centerlines src dst density w
            = (add_event (EvOpenR src) w, Raise (DriverError src))) as ->.
    { unfold create_centerlines, with_ at 1, fiona_open_r. by rewrite Hsrc. }
    cbn. split_and!; [done..|]. by intros [? ?].
Qed.

(** C2. When the geometry of a feature decodes, the constructor returns
    an object and the object encodes, the record handed to the
    destination has as properties exactly the pairs of the object's
    [__dict__] whose key is a key of the feature's properties: the keys
    are the intersection of the two key sets, the values are the
    object's, and a key the feature did not have is absent. *)
Theorem output_properties_are_the_intersection dest density rec w
    input_geom obj geom' :
  shape (geometry rec) = Ok input_geom →
  call_Centerline input_geom density (properties rec) = Ok obj →
  mapping obj = Ok geom' →
  ∃ out,
    process_record dest density rec w = fiona_write dest out w
    ∧ converted density rec = Some out
    ∧ geometry out = geom'
    ∧ (∀ k v, properties out !! k = Some v ↔
              obj_dict obj !! k = Some v ∧ is_Some (properties rec !! k))
    ∧ dom (properties out) = dom (obj_dict obj) ∩ dom (properties rec)
    ∧ (∀ k, properties rec !! k = None → properties out !! k = None)
    ∧ (fiona_write_error dest.2 out = None →
       process_record dest density rec w
       = (set_files (alter (append_records [out]) dest.1)
            (add_event (EvWrite dest.1 out) w), Ok tt)).
Proof.
  intros Hs Hc Hm.
  exists (mkFeature geom' (kept_properties obj (properties rec))).
  assert (Hlook : ∀ k v,
             kept_properties obj (properties rec) !! k = Some v ↔
             obj_dict obj !! k = Some v ∧ is_Some (properties rec !! k)).
  { intros k v. unfold kept_properties. by rewrite map_lookup_filter_Some. }
  split_and!.
  - by eapply process_record_write.
  - unfold converted. by rewrite Hs, Hc, Hm.
  - done.
  - apply Hlook.
  - apply set_eq. intros k.
    rewrite elem_of_intersection, !elem_of_dom. cbn [properties]. split.
    + intros [v Hv]. apply Hlook in Hv as [Hv Hk]. eauto.
    + intros [[v Hv] Hk]. exists v. by apply Hlook.
  - intros k Hk. cbn [properties].
    destruct (kept_properties obj (properties rec) !! k) as [v|] eqn:Hv;
      [|done].
    apply Hlook in Hv as [_ [? ?]]. congruence.
  - intros Hwr. rewrite (process_record_write _ _ _ _ _ _ _ Hs Hc Hm).
    unfold fiona_write. by rewrite Hwr.
Qed.

(** C3. When the constructor call for a feature raises
    [InvalidInputTypeError] or [TooFewRidgesError], the step for that
    feature returns normally: the exception is appended to the warnings,
    no file and no I/O call is added, and the loop goes on with the
    remaining features from that world. *)
Theorem caught_errors_skip_the_feature dest density rec
    (recs : list (Feature Geometry Value)) w input_geom e :
  shape (geometry rec) = Ok input_geom →
  call_Centerline input_geom density (properties rec) = Raise e →
  exn_class e = "InvalidInputTypeError"
  ∨ exn_class e = "TooFewRidgesError" →
  ∃ w',
    process_record dest density rec w = (w', Ok tt)
    ∧ warnings w' = warnings w ++ [e]
    ∧ files w' = files w
    ∧ io_log w' = io_log w
    ∧ ogr_drivers w' = ogr_drivers w
    ∧ converted density rec = None
    ∧ for_each (rec :: recs) (process_record dest density) w
      = for_each recs (process_record dest density) w'.
Proof.
  intros Hs Hc Hcls. exists (add_warning e w).
  assert (Hin : exn_class e ∈ caught).
  { destruct Hcls as [-> | ->]; by apply (bool_decide_unpack _). }
  pose proof (process_record_caught dest _ _ w _ _ Hs Hc Hin) as Hstep.
  split_and!; try done.
  - unfold converted. by rewrite Hs, Hc.
  - cbn [for_each]. unfold mbind, M_bind. by rewrite Hstep.
Qed.

(** C10. When the properties of a feature have a key [input_geom] or
    [interpolation_dist] and its geometry decodes, the constructor call
    raises a [TypeError]; that class is not one of the two caught, so the
    step raises it with the world untouched, the loop stops at that
    feature whatever follows it, and the run ends with that exception. *)
Theorem duplicate_keyword_aborts_the_run dest density rec w input_geom :
  shape (geometry rec) = Ok input_geom →
  is_Some (properties rec !! "input_geom")
  ∨ is_Some (properties rec !! "interpolation_dist") →
  ∃ e,
    call_Centerline input_geom density (properties rec) = Raise e
    ∧ exn_class e = "TypeError"
    ∧ (exn_class e ∉ caught)
    ∧ process_record dest density rec w = (w, Raise e)
    ∧ (∀ pre post w0,
         for_each pre (process_record dest density) w0 = (w, Ok tt) →
         for_each (pre ++ rec :: post) (process_record dest density) w0
         = (w, Raise e))
    ∧ (∀ src dst wi ds driver pre post,
         files wi !! src = Some ds →
         get_ogr_driver dst wi = (wi, Ok driver) →
         fiona_open_w_error dst (GetName driver) = None →
         dest = (dst, <["geometry" := SStr "MultiLineString"]> (ds_schema ds)) →
         ds_records ds = pre ++ rec :: post →
         for_each pre (process_record dest density)
                  (opened src dst driver ds wi) = (w, Ok tt) →
         create_centerlines src dst density wi
         = (add_event (EvClose src) (add_event (EvClose dst) w), Raise e)).
Proof.
  intros Hs Hkey.
  assert (∃ e, call_Centerline input_geom density (properties rec) = Raise e
               ∧ exn_class e = "TypeError") as (e & Hc & Hcls).
  { unfold call_Centerline.
    destruct (decide (is_Some (properties rec !! "input_geom"))) as [Hk|Hk].
    - rewrite bool_decide_eq_true_2 by done. eauto.
    - rewrite bool_decide_eq_false_2 by done.
      destruct Hkey as [?|Hk2]; [done|].
      rewrite bool_decide_eq_true_2 by done. eauto. }
  assert (Hnot : exn_class e ∉ caught).
  { rewrite Hcls. by apply (bool_decide_unpack _). }
  pose proof (process_record_uncaught dest _ _ w _ _ Hs Hc Hnot) as Hstep.
  assert (Hloop : ∀ pre post w0,
             for_each pre (process_record dest density) w0 = (w, Ok tt) →
             for_each (pre ++ rec :: post) (process_record dest density) w0
             = (w, Raise e)).
  { intros pre post w0 Hpre. rewrite for_each_app, Hpre.
    cbn [for_each]. unfold mbind, M_bind. by rewrite Hstep. }
  exists e. split_and!; try done.
  intros src dst wi ds driver pre post Hsrc Hdrv Hopen -> Hrecs Hpre.
  rewrite (create_centerlines_run _ _ _ _ _ _ Hsrc Hdrv Hopen). cbn zeta.
  by rewrite Hrecs, (Hloop _ _ _ Hpre).
Qed.

Lemma for_each_opened src dst density w ds driver w2 r :
  for_each (ds_records ds)
    (process_record
       (dst, <["geometry" := SStr "MultiLineString"]> (ds_schema ds))
       density)
    (opened src dst driver ds w) = (w2, r) →
  ∃ (n : nat) evs,
    (n ≤ length (ds_records ds))%nat
    ∧ (r = Ok tt → n = length (ds_records ds))
    ∧ files w2 !! dst
      = Some (mkDataset (GetName driver)
                (<["geometry" := SStr "MultiLineString"]> (ds_schema ds))
                (ds_crs ds) (ds_encoding ds)
                (omap (converted density) (take n (ds_records ds))))
    ∧ io_log w2
      = io_log w
        ++ [EvOpenR src;
            EvOpenW dst (GetName driver)
              (<["geometry" := SStr "MultiLineString"]> (ds_schema ds))
              (ds_crs ds) (ds_encoding ds)]
        ++ evs
    ∧ Forall (is_write_to dst) evs.
Proof.
  intros Hrun.
  apply for_each_process_record in Hrun
    as (n & ws & evs & Hn & Hall & -> & Hevs & _).
  exists n, evs. split_and!; [done..| | |done].
  - cbn. by rewrite lookup_alter_eq, lookup_insert_eq.
  - cbn. by rewrite <- !app_assoc.
Qed.

(** C4. After a run whose source opened, whose driver resolved and whose
    destination opened, the schema of the destination is the schema of
    the source with ["MultiLineString"] stored under ["geometry"]: every
    other entry is the source's, so the attribute definitions are the
    same list of names and types in the same order. *)
Theorem output_schema_only_retypes_geometry src dst density w ds driver :
  files w !! src = Some ds →
  get_ogr_driver dst w = (w, Ok driver) →
  fiona_open_w_error dst (GetName driver) = None →
  ∃ out,
    files (create_centerlines src dst density w).1 !! dst = Some out
    ∧ ds_schema out
      = <["geometry" := SStr "MultiLineString"]> (ds_schema ds)
    ∧ ds_schema out !! "geometry" = Some (SStr "MultiLineString")
    ∧ (∀ k, k ≠ "geometry" → ds_schema out !! k = ds_schema ds !! k)
    ∧ (∀ fields, ds_schema ds !! "properties" = Some (SFields fields) →
                 ds_schema out !! "properties" = Some (SFields fields)).
Proof.
  intros Hsrc Hdrv Hopen.
  rewrite (create_centerlines_run _ _ _ _ _ _ Hsrc Hdrv Hopen). cbn zeta.
  destruct (for_each _ _ _) as [w2 r] eqn:Hrun.
  apply for_each_opened in Hrun as (n & evs & _ & _ & Hfile & _).
  eexists. cbn [fst add_event files]. split; [exact Hfile|].
  cbn [ds_schema]. split_and!.
  - done.
  - apply lookup_insert_eq.
  - intros k Hk. by rewrite lookup_insert_ne.
  - intros fields Hf. by rewrite lookup_insert_ne.
Qed.

Lemma filter_open_w_writes dst (evs : list io_event) :
  Forall (is_write_to dst) evs →
  filter (λ ev, is_open_w ev = true) evs = [].
Proof.
  induction 1 as [|ev evs [out ->] _ IH]; [done|].
  by rewrite filter_cons_False.
Qed.

(** C7. In a run whose source opened and whose driver resolved, exactly
    one of the I/O calls issued opens a collection for writing: the one
    on the destination path, with the name of the resolved driver, the
    derived schema, and the crs and the encoding of the source as they
    are; when that call succeeds the destination file carries the same
    four settings. *)
Theorem destination_opened_once src dst density w ds driver :
  files w !! src = Some ds →
  get_ogr_driver dst w = (w, Ok driver) →
  ∃ evs,
    io_log (create_centerlines src dst density w).1 = io_log w ++ evs
    ∧ filter (λ ev, is_open_w ev = true) evs
      = [EvOpenW dst (GetName driver)
           (<["geometry" := SStr "MultiLineString"]> (ds_schema ds))
           (ds_crs ds) (ds_encoding ds)]
    ∧ (fiona_open_w_error dst (GetName driver) = None →
       ∃ out,
         files (create_centerlines src dst density w).1 !! dst = Some out
         ∧ ds_driver out = GetName driver
         ∧ ds_schema out
           = <["geometry" := SStr "MultiLineString"]> (ds_schema ds)
         ∧ ds_crs out = ds_crs ds
         ∧ ds_encoding out = ds_encoding ds).
Proof.
  intros Hsrc Hdrv.
  destruct (fiona_open_w_error dst (GetName driver)) as [e|] eqn:Hopen.
  - assert (create_centerlines src dst density w
            = (add_event (EvClose src)
                 (add_event
                    (EvOpenW dst (GetName driver)
                       (<["geometry" := SStr "MultiLineString"]>
                          (ds_schema ds))
                       (ds_crs ds) (ds_encoding ds))
                    (add_event (EvOpenR src) w)), Raise e)) as ->.
    { rewrite get_ogr_driver_resolved in Hdrv. injection Hdrv as Hdrv.
      unfold create_centerlines, with_ at 1, fiona_open_r. rewrite Hsrc.
      unfold mbind, M_bind. rewrite get_ogr_driver_resolved.
      cbn [ogr_drivers add_event]. rewrite Hdrv.
      unfold with_, fiona_open_w. by rewrite Hopen. }
    eexists. cbn. rewrite <- !app_assoc. split_and!; [done|done|done].
  - rewrite (create_centerlines_run _ _ _ _ _ _ Hsrc Hdrv Hopen). cbn zeta.
    destruct (for_each _ _ _) as [w2 r] eqn:Hrun.
    apply for_each_opened in Hrun as (n & evs & _ & _ & Hfile & Hlog & Hevs).
    eexists. cbn [fst add_event files io_log]. rewrite Hlog.
    rewrite <- !app_assoc. split_and!; [done| |].
    + cbn [app]. rewrite filter_cons_False by done.
      rewrite filter_cons_True by done. f_equal.
      rewrite filter_app, (filter_open_w_writes _ _ Hevs). done.
    + intros _. eexists. split; [exact Hfile|done].
Qed.

Lemma omap_filter_sublist {A B} (f : A → option B) (l : list A) :
  Forall2 (λ x y, f x = Some y) (filter (λ x, is_Some (f x)) l) (omap f l).
Proof.
  induction l as [|x l IH]; [constructor|]. cbn [omap list_omap].
  destruct (f x) as [y|] eqn:Hx.
  - rewrite filter_cons_True by (rewrite Hx; eauto). by constructor.
  - rewrite filter_cons_False by (rewrite Hx; by intros [? ?]). done.
Qed.

(** C6. After a run whose source opened, whose driver resolved and whose
    destination opened, the records of the destination are the output
    records of a subsequence of the source records, one each and in
    source order; when the run returns normally that subsequence is every
    source record that has an output record. *)
Theorem output_order_follows_source_order src dst density w ds driver :
  files w !! src = Some ds →
  get_ogr_driver dst w = (w, Ok driver) →
  fiona_open_w_error dst (GetName driver) = None →
  ∃ out succ,
    files (create_centerlines src dst density w).1 !! dst = Some out
    ∧ succ `sublist_of` ds_records ds
    ∧ Forall2 (λ rec o, converted density rec = Some o)
              succ (ds_records out)
    ∧ ((create_centerlines src dst density w).2 = Ok tt →
       succ = filter (λ rec, is_Some (converted density rec))
                     (ds_records ds)
       ∧ ds_records out = omap (converted density) (ds_records ds)).
Proof.
  intros Hsrc Hdrv Hopen.
  rewrite (create_centerlines_run _ _ _ _ _ _ Hsrc Hdrv Hopen). cbn zeta.
  destruct (for_each _ _ _) as [w2 r] eqn:Hrun.
  apply for_each_opened in Hrun as (n & evs & _ & Hall & Hfile & _).
  eexists _, (filter (λ rec, is_Some (converted density rec))
                     (take n (ds_records ds))).
  cbn [fst snd add_event files]. split; [exact Hfile|].
  cbn [ds_records]. split_and!.
  - etrans; [apply sublist_filter | apply sublist_take].
  - apply omap_filter_sublist.
  - intros Hr. rewrite (Hall Hr), firstn_all. done.
Qed.

End OrchestratorProofs.

(** * Further properties *)

(** ** The extension of a path *)

Lemma string_app_assoc (a b c : string) : (a +:+ b) +:+ c = a +:+ b +:+ c.
Proof.
  induction a as [|x a IH]; [done|]. by rewrite !app_cons, IH.
Qed.

Lemma contains_trans (a b c : string) :
  PyStr.contains a b = true → PyStr.contains b c = true →
  PyStr.contains a c = true.
Proof.
  rewrite !contains_spec. intros (p1 & q1 & ->) (p2 & q2 & ->).
  exists (p2 +:+ p1), (q1 +:+ q2). by rewrite !string_app_assoc.
Qed.

Lemma take_drop (n : nat) (s : string) :
  PyStr.take n s +:+ PyStr.drop n s = s.
Proof.
  revert s. induction n as [|n IH]; intros [|a s]; try done.
  cbn [PyStr.take PyStr.drop]. by rewrite app_cons, IH.
Qed.

Lemma drop_succ (n : nat) (s : string) :
  PyStr.drop 1 (PyStr.drop n s) = PyStr.drop (S n) s.
Proof.
  revert s. induction n as [|n IH]; intros [|a s]; try done.
  cbn [PyStr.drop] in *. apply IH.
Qed.

Lemma rfind_drop (c : ascii) (n : nat) (s : string) :
  (PyStr.rfind c s < Z.of_nat n)%Z → PyStr.rfind c (PyStr.drop n s) = (-1)%Z.
Proof.
  revert n. induction s as [|a s IH]; intros n Hlt; [by destruct n|].
  destruct n as [|n].
  - pose proof (rfind_lower_bound c (String a s)). cbn [PyStr.drop]. lia.
  - cbn [PyStr.drop]. apply IH. cbn [PyStr.rfind] in Hlt.
    pose proof (rfind_lower_bound c s).
    destruct (0 <=? PyStr.rfind c s)%Z eqn:Hr; lia.
Qed.

Lemma rfind_at (c : ascii) (n : nat) (s : string) :
  PyStr.rfind c s = Z.of_nat n →
  PyStr.drop n s = String c (PyStr.drop (S n) s).
Proof.
  revert n. induction s as [|a s IH]; intros n Hn;
    [cbn [PyStr.rfind] in Hn; lia|].
  cbn [PyStr.rfind] in Hn.
  destruct (0 <=? PyStr.rfind c s)%Z eqn:Hr.
  - destruct n as [|n]; [lia|]. cbn [PyStr.drop]. apply IH. lia.
  - case_bool_decide as Hac; [|lia]. subst a.
    destruct n as [|n]; [done|lia].
Qed.

Lemma rfind_absent (c : ascii) (s : string) :
  PyStr.rfind c s = (-1)%Z → PyStr.contains (String c "") s = false.
Proof.
  induction s as [|a s IH]; intros Hr; [done|].
  cbn [PyStr.rfind] in Hr. pose proof (rfind_lower_bound c s).
  destruct (0 <=? PyStr.rfind c s)%Z eqn:Hle; [lia|].
  case_bool_decide as Hac; [lia|].
  cbn [PyStr.contains String.prefix].
  destruct (Ascii.ascii_dec c a) as [->|_]; [done|].
  apply IH. lia.
Qed.

Lemma splitext_cases (p : string) :
  splitext p = (p, "")
  ∨ ∃ n : nat,
      PyStr.rfind extsep p = Z.of_nat n
      ∧ (PyStr.rfind sep p < Z.of_nat n)%Z
      ∧ splitext p = (PyStr.take n p, PyStr.drop n p).
Proof.
  unfold splitext.
  destruct (PyStr.rfind sep p <? PyStr.rfind extsep p)%Z eqn:Hlt; [|by left].
  destruct (existsb _ _); [|by left].
  right. exists (Z.to_nat (PyStr.rfind extsep p)).
  pose proof (rfind_lower_bound sep p). split_and!; [lia|lia|done].
Qed.

(** X14. What [splitext] returns puts the path back together; a
    non-empty extension is a dot followed by [EXTENSION]; and [EXTENSION]
    has neither a dot nor a slash in it, so only the part after the last
    dot of the file name is ever compared with the drivers. *)
Theorem EXTENSION_of_is_the_last_suffix (p : string) :
  (splitext p).1 +:+ (splitext p).2 = p
  ∧ ((splitext p).2 ≠ "" → (splitext p).2 = "." +:+ EXTENSION_of p)
  ∧ PyStr.contains "." (EXTENSION_of p) = false
  ∧ PyStr.contains "/" (EXTENSION_of p) = false.
Proof.
  unfold EXTENSION_of.
  destruct (splitext_cases p) as [->|(n & Hdot & Hsep & ->)]; cbn [fst snd].
  - split_and!; try done. clear. induction p as [|a p IH]; [done|].
    by rewrite app_cons, IH.
  - rewrite drop_succ. split_and!.
    + apply take_drop.
    + intros _. by apply rfind_at.
    + apply (rfind_absent extsep), rfind_drop. lia.
    + apply (rfind_absent sep), rfind_drop. lia.
Qed.

(** *** The extension, spelled out *)

Lemma length_app_str (a b : string) :
  String.length (a +:+ b) = (String.length a + String.length b)%nat.
Proof.
  induction a as [|x a IH]; [done|].
  rewrite app_cons. cbn [String.length]. by rewrite IH.
Qed.

Lemma rfind_upper_bound (c : ascii) (s : string) :
  (PyStr.rfind c s < Z.of_nat (String.length s))%Z.
Proof.
  induction s as [|a s IH]; cbn [PyStr.rfind String.length]; [lia|].
  destruct (0 <=? PyStr.rfind c s)%Z; [lia|]. case_bool_decide; lia.
Qed.

Lemma rfind_head (c : ascii) (b : string) :
  (0 ≤ PyStr.rfind c (String c b))%Z.
Proof.
  cbn [PyStr.rfind]. destruct (0 <=? PyStr.rfind c b)%Z eqn:Hr; [lia|].
  by rewrite bool_decide_eq_true_2.
Qed.

Lemma rfind_app (c : ascii) (a b : string) :
  PyStr.rfind c (a +:+ b)
  = if (0 <=? PyStr.rfind c b)%Z
    then (Z.of_nat (String.length a) + PyStr.rfind c b)%Z
    else PyStr.rfind c a.
Proof.
  induction a as [|x a IH].
  - rewrite app_empty. pose proof (rfind_lower_bound c b).
    destruct (0 <=? PyStr.rfind c b)%Z eqn:Hr; cbn; lia.
  - rewrite app_cons. cbn [PyStr.rfind String.length]. rewrite IH.
    destruct (0 <=? PyStr.rfind c b)%Z eqn:Hr; [|done].
    apply Z.leb_le in Hr.
    rewrite (proj2 (Z.leb_le 0 (Z.of_nat (String.length a)
                                + PyStr.rfind c b))) by lia.
    lia.
Qed.

Lemma lacks_rfind (c : ascii) (s : string) :
  lacks c s ↔ PyStr.rfind c s = (-1)%Z.
Proof.
  split.
  - intros Hlacks. pose proof (rfind_lower_bound c s).
    destruct (decide (PyStr.rfind c s = (-1)%Z)) as [|Hne]; [done|].
    assert (PyStr.rfind c s = Z.of_nat (Z.to_nat (PyStr.rfind c s)))
      as Hn by lia.
    apply rfind_at in Hn.
    destruct (Hlacks (PyStr.take (Z.to_nat (PyStr.rfind c s)) s)
                (PyStr.drop (S (Z.to_nat (PyStr.rfind c s))) s)).
    by rewrite <- Hn, take_drop.
  - intros Hr a b ->. rewrite rfind_app in Hr.
    pose proof (rfind_head c b) as Hhead.
    destruct (0 <=? _)%Z eqn:Hle; lia.
Qed.

Lemma lacks_app (c : ascii) (a b : string) :
  lacks c (a +:+ b) → lacks c a ∧ lacks c b.
Proof.
  intros Hlacks. split.
  - intros x y ->. destruct (Hlacks x (y +:+ b)).
    by rewrite string_app_assoc, app_cons.
  - intros x y ->. destruct (Hlacks (a +:+ x) y).
    by rewrite string_app_assoc.
Qed.

Lemma get_app_length (pre s : string) (c : ascii) :
  String.get (String.length pre) (pre +:+ String c s) = Some c.
Proof. induction pre as [|x pre IH]; [done|]. by rewrite app_cons. Qed.

Lemma get_is_Some (k : nat) (s : string) :
  (k < String.length s)%nat → ∃ c, String.get k s = Some c.
Proof.
  revert k. induction s as [|a s IH]; intros k Hk; cbn in Hk; [lia|].
  destruct k as [|k]; [by exists a|]. apply IH. lia.
Qed.

Lemma rfind_get_le (c : ascii) (k : nat) (s : string) :
  String.get k s = Some c → (Z.of_nat k ≤ PyStr.rfind c s)%Z.
Proof.
  revert k. induction s as [|a s IH]; intros k Hk; [done|].
  destruct k as [|k].
  - injection Hk as ->. apply rfind_head.
  - cbn [String.get] in Hk. apply IH in Hk. cbn [PyStr.rfind].
    destruct (0 <=? PyStr.rfind c s)%Z eqn:Hr; lia.
Qed.

Lemma get_split (c : ascii) (k : nat) (s : string) :
  String.get k s = Some c →
  s = PyStr.take k s +:+ String c (PyStr.drop (S k) s).
Proof.
  revert k. induction s as [|a s IH]; intros k Hk; [done|].
  destruct k as [|k].
  - injection Hk as ->. by destruct s.
  - cbn [String.get] in Hk. apply IH in Hk.
    cbn [PyStr.take PyStr.drop] in *. by rewrite app_cons, <- Hk.
Qed.

Lemma drop_add (j m : nat) (s : string) :
  PyStr.drop m (PyStr.drop j s) = PyStr.drop (j + m) s.
Proof.
  revert s. induction j as [|j IH]; intros s; [done|].
  destruct s as [|a s]; [by destruct m|]. apply IH.
Qed.

(** Where [splitext] finds an extension: the last dot lies after the last
    slash and some character between the two is not a dot. *)
Lemma splitext_found (p : string) :
  (splitext p).2 ≠ "" →
  ∃ n k : nat,
    PyStr.rfind extsep p = Z.of_nat n
    ∧ (PyStr.rfind sep p < Z.of_nat k)%Z ∧ (k < n)%nat
    ∧ String.get k p ≠ Some extsep
    ∧ splitext p = (PyStr.take n p, PyStr.drop n p).
Proof.
  unfold splitext.
  destruct (PyStr.rfind sep p <? PyStr.rfind extsep p)%Z eqn:Hlt; [|done].
  destruct (existsb _ _) eqn:Hex; [|done]. intros _.
  apply existsb_exists in Hex as (i & Hi & Hget).
  apply list_elem_of_In, elem_of_seqZ in Hi.
  apply negb_true_iff, bool_decide_eq_false in Hget.
  pose proof (rfind_lower_bound sep p).
  exists (Z.to_nat (PyStr.rfind extsep p)), (Z.to_nat i).
  split_and!; [lia|lia|lia|done|done].
Qed.

Lemma EXTENSION_of_decomposed (pre rest ext : string) (c : ascii) :
  c ≠ "."%char → c ≠ "/"%char →
  lacks "/" rest → lacks "." ext → lacks "/" ext →
  EXTENSION_of (pre +:+ String c (rest +:+ "." +:+ ext)) = ext.
Proof.
  intros Hc1 Hc2 Hrest Hext1 Hext2.
  apply lacks_rfind in Hrest, Hext1, Hext2.
  set (p := pre +:+ String c (rest +:+ "." +:+ ext)).
  assert (Hp : p = (pre +:+ String c rest) +:+ String "." ext).
  { unfold p. by rewrite string_app_assoc, app_cons. }
  assert (Hdot : PyStr.rfind extsep p
                 = Z.of_nat (String.length (pre +:+ String c rest))).
  { rewrite Hp, rfind_app. unfold extsep. cbn [PyStr.rfind].
    rewrite Hext1. cbn. rewrite bool_decide_eq_true_2 by done. cbn. lia. }
  assert (Hsep : (PyStr.rfind sep p < Z.of_nat (String.length pre))%Z).
  { rewrite Hp, rfind_app. unfold sep. cbn [PyStr.rfind].
    rewrite Hext2. cbn. rewrite rfind_app. cbn [PyStr.rfind].
    rewrite Hrest. cbn. rewrite !bool_decide_eq_false_2 by done. cbn.
    apply rfind_upper_bound. }
  assert (Hlen : String.length (pre +:+ String c rest)
                 = (String.length pre + S (String.length rest))%nat).
  { by rewrite length_app_str. }
  unfold EXTENSION_of, splitext. rewrite Hdot.
  destruct (_ <? _)%Z eqn:Hlt; [|lia].
  destruct (existsb _ _) eqn:Hex.
  - rewrite Nat2Z.id, Hp, drop_length_app. done.
  - apply not_true_iff_false in Hex. destruct Hex.
    apply existsb_exists. exists (Z.of_nat (String.length pre)). split.
    + apply list_elem_of_In, elem_of_seqZ. lia.
    + rewrite Nat2Z.id. unfold p. rewrite get_app_length.
      apply negb_true_iff, bool_decide_eq_false. unfold extsep. congruence.
Qed.

Lemma EXTENSION_of_found (p : string) :
  EXTENSION_of p ≠ "" →
  ∃ pre c rest,
    p = pre +:+ String c (rest +:+ "." +:+ EXTENSION_of p)
    ∧ c ≠ "."%char ∧ c ≠ "/"%char
    ∧ lacks "/" rest
    ∧ lacks "." (EXTENSION_of p) ∧ lacks "/" (EXTENSION_of p).
Proof.
  intros Hne.
  assert (Hext : (splitext p).2 ≠ "").
  { intros He. apply Hne. unfold EXTENSION_of.
    destruct (splitext p) as [root ext]. cbn in He. by subst ext. }
  destruct (splitext_found p Hext) as (n & k & Hdot & Hsep & Hkn & Hget & Hs).
  assert (EXTENSION_of p = PyStr.drop (S n) p) as ->.
  { unfold EXTENSION_of. rewrite Hs. apply drop_succ. }
  pose proof (rfind_upper_bound extsep p) as Hub.
  destruct (get_is_Some k p) as [c Hc]; [lia|].
  pose proof (get_split c k p Hc) as Hsplit.
  set (d := PyStr.drop (S k) p) in *.
  assert (Hd : d = PyStr.take (n - S k) d +:+ "." +:+ PyStr.drop (S n) p).
  { rewrite <- (take_drop (n - S k) d) at 1. f_equal.
    unfold d. rewrite drop_add.
    replace (S k + (n - S k))%nat with n by lia. by apply rfind_at. }
  assert (Hlacks : lacks "/" d).
  { apply lacks_rfind, rfind_drop. fold sep. lia. }
  rewrite Hd in Hlacks. apply lacks_app in Hlacks as [Hrest _].
  exists (PyStr.take k p), c, (PyStr.take (n - S k) d).
  split_and!.
  - by rewrite <- Hd.
  - intros ->. by apply Hget.
  - intros ->. apply rfind_get_le in Hc. fold sep in Hc. lia.
  - done.
  - apply lacks_rfind, rfind_drop. fold extsep. lia.
  - apply lacks_rfind, rfind_drop. fold sep. lia.
Qed.

(** ** More on the driver resolver *)

Section ResolverFacts.
Context `{Collaborators}.

Lemma resolved_Raise_inv (EXTENSION : string) (drivers : list Driver)
    (e : exn) :
  resolved EXTENSION drivers = Raise e →
  e = InvalidInputTypeError (no_driver_msg EXTENSION)
  ∧ ∀ d, d ∈ drivers → driver_matches EXTENSION d = false.
Proof.
  unfold resolved.
  destruct (list_find _ drivers) as [[i x]|] eqn:Hf; [done|].
  intros [= <-]. split; [done|].
  apply list_find_None in Hf. rewrite Forall_forall in Hf.
  intros d Hd. specialize (Hf d Hd). by destruct (driver_matches EXTENSION d).
Qed.

Lemma resolved_some_match (EXTENSION : string) (drivers : list Driver)
    (d : Driver) :
  d ∈ drivers → driver_matches EXTENSION d = true →
  ∃ d', resolved EXTENSION drivers = Ok d'.
Proof.
  intros Hd Hm. destruct (resolved EXTENSION drivers) as [d'|e] eqn:Hr; [eauto|].
  apply resolved_Raise_inv in Hr as [_ Hno]. rewrite (Hno d Hd) in Hm. done.
Qed.

(** C5. The resolver leaves the world alone and returns a driver exactly
    when that driver is the first one, in [GetDriver] index order, that
    matches the extension of the path; a driver matches when the extension
    equals its [DMD_EXTENSION] item or occurs somewhere inside its
    [DMD_EXTENSIONS] item, an absent item counting as the empty string.
    The extension is what follows the last dot of the path, the dot
    itself left out and the case kept, when that dot comes after the last
    slash and after a character of the file name that is not a dot; it is
    empty in every other case. *)
Theorem get_ogr_driver_first_match (filepath : string) (w : World) :
  (∀ driver,
     get_ogr_driver filepath w = (w, Ok driver) ↔
     ∃ idx, ogr_drivers w !! idx = Some driver
            ∧ driver_matches (EXTENSION_of filepath) driver = true
            ∧ ∀ j d, ogr_drivers w !! j = Some d → j < idx →
                     driver_matches (EXTENSION_of filepath) d = false)
  ∧ (∀ EXTENSION driver,
       driver_matches EXTENSION driver = true ↔
       EXTENSION = default "" (drv_metadata driver !! "DMD_EXTENSION")
       ∨ ∃ pre post,
           default "" (drv_metadata driver !! "DMD_EXTENSIONS")
           = pre +:+ EXTENSION +:+ post)
  ∧ (∀ pre c rest ext,
       filepath = pre +:+ String c (rest +:+ "." +:+ ext) →
       c ≠ "."%char → c ≠ "/"%char →
       lacks "/" rest → lacks "." ext → lacks "/" ext →
       EXTENSION_of filepath = ext)
  ∧ (EXTENSION_of filepath ≠ "" →
     ∃ pre c rest,
       filepath = pre +:+ String c (rest +:+ "." +:+ EXTENSION_of filepath)
       ∧ c ≠ "."%char ∧ c ≠ "/"%char
       ∧ lacks "/" rest
       ∧ lacks "." (EXTENSION_of filepath)
       ∧ lacks "/" (EXTENSION_of filepath)).
Proof.
  split_and!.
  - intros driver. rewrite get_ogr_driver_resolved, <- resolved_Ok.
    split; congruence.
  - apply driver_matches_spec.
  - intros pre c rest ext ->. apply EXTENSION_of_decomposed.
  - apply EXTENSION_of_found.
Qed.

(** X11. The resolver raises exactly when no driver of the registry
    matches, and what it raises is then the [InvalidInputTypeError] with
    the message about the extension: no lookup [GetDriver(idx)] ever
    comes back empty. A driver it returns is a driver of the registry
    that matches. *)
Theorem get_ogr_driver_raises_iff_no_match (filepath : string) (w : World) :
  (∀ e, get_ogr_driver filepath w = (w, Raise e) ↔
        e = mkExn "InvalidInputTypeError"
              ("No driver found for the following file extension: "
               +:+ EXTENSION_of filepath)
        ∧ ∀ d, d ∈ ogr_drivers w →
               driver_matches (EXTENSION_of filepath) d = false)
  ∧ (∀ d, get_ogr_driver filepath w = (w, Ok d) →
          d ∈ ogr_drivers w
          ∧ driver_matches (EXTENSION_of filepath) d = true)
  ∧ ((∃ d, get_ogr_driver filepath w = (w, Ok d))
     ∨ ∃ e, get_ogr_driver filepath w = (w, Raise e)
            ∧ exn_class e = "InvalidInputTypeError").
Proof.
  rewrite get_ogr_driver_resolved. split_and!.
  - intros e. split.
    + intros [= Hr]. by apply resolved_Raise_inv in Hr.
    + intros [-> Hno]. by rewrite resolved_Raise.
  - intros d [= Hr]. apply resolved_Ok in Hr as (idx & Hidx & Hm & _).
    split; [|done]. eapply list_elem_of_lookup_2, Hidx.
  - destruct (resolved _ _) as [d|e] eqn:Hr; [left; eauto|right].
    exists e. split; [done|]. by apply resolved_Raise_inv in Hr as [-> _].
Qed.

(** X12. Matching is by occurrence inside the list of extensions: when
    some driver of the registry lists [listed], every path whose
    extension occurs inside [listed] resolves to a driver. *)
Theorem part_of_a_listed_extension_resolves (filepath listed : string)
    (w : World) (d : Driver) :
  d ∈ ogr_drivers w →
  PyStr.contains listed (default "" (drv_metadata d !! "DMD_EXTENSIONS"))
  = true →
  PyStr.contains (EXTENSION_of filepath) listed = true →
  driver_matches (EXTENSION_of filepath) d = true
  ∧ ∃ d', get_ogr_driver filepath w = (w, Ok d').
Proof.
  intros Hd Hlisted Hpart.
  assert (Hm : driver_matches (EXTENSION_of filepath) d = true).
  { apply driver_matches_spec. right. apply contains_spec.
    by eapply contains_trans. }
  split; [done|]. rewrite get_ogr_driver_resolved.
  destruct (resolved_some_match _ _ _ Hd Hm) as [d' ->]. eauto.
Qed.

(** X13. Drivers registered after the ones already there never change
    the driver of a path that resolved; drivers registered before them
    that do not match the extension change neither the driver nor the
    failure. *)
Theorem registry_growth_keeps_resolution (filepath : string)
    (w w' : World) (more : list Driver) :
  (∀ d, get_ogr_driver filepath w = (w, Ok d) →
        ogr_drivers w' = ogr_drivers w ++ more →
        get_ogr_driver filepath w' = (w', Ok d))
  ∧ (ogr_drivers w' = more ++ ogr_drivers w →
     (∀ d, d ∈ more → driver_matches (EXTENSION_of filepath) d = false) →
     (get_ogr_driver filepath w').2 = (get_ogr_driver filepath w).2).
Proof.
  rewrite !get_ogr_driver_resolved. unfold resolved. split.
  - intros d [= Hr] ->. f_equal.
    destruct (list_find _ (ogr_drivers w)) as [[i x]|] eqn:Hf; [|done].
    by rewrite (list_find_app_l _ _ _ _ _ Hf).
  - intros -> Hno. cbn [snd].
    rewrite list_find_app_r.
    + by destruct (list_find _ (ogr_drivers w)) as [[i x]|].
    + apply list_find_None, Forall_forall. intros d Hd.
      rewrite (Hno d Hd). done.
Qed.

End ResolverFacts.

(** ** More on the orchestrator *)

Section OrchestratorFacts.
Context `{Collaborators}.

Implicit Types (w : World) (rec : Feature Geometry Value).
Implicit Types (dest : string * gmap string schema_value).

Lemma world_same w :
  w = mkWorld (ogr_drivers w) (files w) (warnings w) (io_log w ++ []).
Proof. rewrite app_nil_r. by destruct w. Qed.

(** The three ways a step can go, each one the same in every world: the
    feature is written, it is skipped with a warning, or the step raises
    after at most a refused write. *)
Lemma process_record_cases dest density rec :
  (∃ out,
     converted density rec = Some out ∧ skipped density rec = None
     ∧ ∀ w, process_record dest density rec w
            = (set_files (alter (append_records [out]) dest.1)
                 (add_event (EvWrite dest.1 out) w), Ok tt))
  ∨ (∃ e,
       converted density rec = None ∧ skipped density rec = Some e
       ∧ exn_class e ∈ caught
       ∧ ∀ w, process_record dest density rec w = (add_warning e w, Ok tt))
  ∨ (∃ e evs,
       Forall (is_write_to dest.1) evs
       ∧ ∀ w, process_record dest density rec w
              = (mkWorld (ogr_drivers w) (files w) (warnings w)
                   (io_log w ++ evs), Raise e)).
Proof.
  destruct (shape (geometry rec)) as [input_geom|e] eqn:Hs.
  2:{ right; right. exists e, []. split; [done|]. intros w.
      rewrite <- world_same. by apply process_record_shape_raise. }
  destruct (call_Centerline input_geom density (properties rec))
    as [obj|e] eqn:Hc.
  2:{ destruct (decide (exn_class e ∈ caught)) as [Hin|Hin].
      - right; left. exists e. split_and!; [..|done|].
        + unfold converted. by rewrite Hs, Hc.
        + unfold skipped. by rewrite Hs, Hc, bool_decide_eq_true_2.
        + intros w. by eapply process_record_caught.
      - right; right. exists e, []. split; [done|]. intros w.
        rewrite <- world_same. by eapply process_record_uncaught. }
  destruct (mapping obj) as [geom'|e] eqn:Hm.
  2:{ right; right. exists e, []. split; [done|]. intros w.
      rewrite <- world_same. by eapply process_record_mapping_raise. }
  set (out := mkFeature geom' (kept_properties obj (properties rec))).
  destruct (fiona_write_error dest.2 out) as [e|] eqn:Hwr.
  - right; right. exists e, [EvWrite dest.1 out]. split.
    + repeat constructor. by exists out.
    + intros w. rewrite (process_record_write _ _ _ _ _ _ _ Hs Hc Hm).
      unfold fiona_write. fold out. by rewrite Hwr.
  - left. exists out. split_and!.
    + unfold converted. by rewrite Hs, Hc, Hm.
    + unfold skipped. by rewrite Hs, Hc.
    + intros w. rewrite (process_record_write _ _ _ _ _ _ _ Hs Hc Hm).
      unfold fiona_write. fold out. by rewrite Hwr.
Qed.

Lemma for_each_cons rec (recs : list (Feature Geometry Value))
    (body : Feature Geometry Value → M unit) w :
  for_each (rec :: recs) body w
  = match body rec w with
    | (w1, Ok _) => for_each recs body w1
    | (w1, Raise e) => (w1, Raise e)
    end.
Proof. done. Qed.

(** The world a loop that returned normally leaves. *)
Lemma for_each_ok dest density (recs : list (Feature Geometry Value)) w w' :
  for_each recs (process_record dest density) w = (w', Ok tt) →
  w' = mkWorld (ogr_drivers w)
         (alter (append_records (omap (converted density) recs)) dest.1
                (files w))
         (warnings w ++ omap (skipped density) recs)
         (io_log w ++ (EvWrite dest.1 <$> omap (converted density) recs))
  ∧ (length (omap (converted density) recs)
     + length (omap (skipped density) recs) = length recs)%nat
  ∧ Forall (λ e, exn_class e ∈ caught) (omap (skipped density) recs).
Proof.
  revert w. induction recs as [|rec recs IH]; intros w Hrun.
  { injection Hrun as <-. split_and!; [|done|done].
    apply world_eq; rewrite ?app_nil_r; try done. simpl.
    symmetry. apply alter_id. intros ? _. apply append_records_nil. }
  rewrite for_each_cons in Hrun.
  destruct (process_record_cases dest density rec)
    as [(out & Hconv & Hskip & Hstep)
       |[(e & Hconv & Hskip & Hin & Hstep)|(e & evs & _ & Hstep)]];
    rewrite Hstep in Hrun; [| |done].
  - apply IH in Hrun as (-> & Hlen & Hall).
    cbn [omap list_omap]. rewrite Hconv, Hskip.
    split_and!; [|simpl; lia|done].
    simpl. rewrite <- app_assoc. f_equal.
    rewrite alter_alter_eq. apply alter_ext. intros ds _. simpl.
    apply (append_records_app [out]).
  - apply IH in Hrun as (-> & Hlen & Hall).
    cbn [omap list_omap]. rewrite Hconv, Hskip.
    split_and!; [|simpl; lia|by constructor].
    simpl. by rewrite <- app_assoc.
Qed.

(** A step that raises leaves the files and the warnings as they were. *)
Lemma process_record_raise_frame dest density rec w w' e :
  process_record dest density rec w = (w', Raise e) →
  files w' = files w ∧ warnings w' = warnings w.
Proof.
  intros Hstep.
  destruct (process_record_cases dest density rec)
    as [(out & _ & _ & Hcase)
       |[(e' & _ & _ & _ & Hcase)|(e' & evs & _ & Hcase)]];
    rewrite Hcase in Hstep; [done|done|].
  by injection Hstep as <- _.
Qed.

(** *** The exits of a run *)

Lemma create_centerlines_no_source src dst density w :
  files w !! src = None →
  create_centerlines src dst density w
  = (add_event (EvOpenR src) w, Raise (DriverError src)).
Proof.
  intros Hsrc. unfold create_centerlines, with_ at 1, fiona_open_r.
  by rewrite Hsrc.
Qed.

Lemma create_centerlines_no_driver src dst density w ds e :
  files w !! src = Some ds →
  get_ogr_driver dst w = (w, Raise e) →
  create_centerlines src dst density w
  = (add_event (EvClose src) (add_event (EvOpenR src) w), Raise e).
Proof.
  intros Hsrc Hdrv.
  rewrite get_ogr_driver_resolved in Hdrv. injection Hdrv as Hdrv.
  unfold create_centerlines, with_ at 1, fiona_open_r. rewrite Hsrc.
  unfold mbind, M_bind. rewrite get_ogr_driver_resolved.
  cbn [ogr_drivers add_event]. by rewrite Hdrv.
Qed.

Lemma create_centerlines_refused src dst density w ds driver e :
  files w !! src = Some ds →
  get_ogr_driver dst w = (w, Ok driver) →
  fiona_open_w_error dst (GetName driver) = Some e →
  create_centerlines src dst density w
  = (add_event (EvClose src)
       (add_event
          (EvOpenW dst (GetName driver)
             (<["geometry" := SStr "MultiLineString"]> (ds_schema ds))
             (ds_crs ds) (ds_encoding ds))
          (add_event (EvOpenR src) w)), Raise e).
Proof.
  intros Hsrc Hdrv Hopen.
  rewrite get_ogr_driver_resolved in Hdrv. injection Hdrv as Hdrv.
  unfold create_centerlines, with_ at 1, fiona_open_r. rewrite Hsrc.
  unfold mbind, M_bind. rewrite get_ogr_driver_resolved.
  cbn [ogr_drivers add_event]. rewrite Hdrv.
  unfold with_, fiona_open_w. by rewrite Hopen.
Qed.

(** X1. Whatever way a run ends, the I/O calls it adds are one of four
    sequences, and in each the collections opened so far are closed again,
    the destination before the source: only the source was tried and
    could not be opened; the source was opened and closed because the
    resolver raised; the destination was refused and the source closed;
    or both were opened, some records were written to the destination and
    to nothing else, and both were closed. In the first three no warning
    is logged and the exception is the one that stopped the run. *)
Theorem every_exit_closes_what_it_opened src dst density w :
  let w' := (create_centerlines src dst density w).1 in
  let r := (create_centerlines src dst density w).2 in
  match files w !! src with
  | None =>
      io_log w' = io_log w ++ [EvOpenR src]
      ∧ warnings w' = warnings w ∧ r = Raise (DriverError src)
  | Some ds =>
      match (get_ogr_driver dst w).2 with
      | Raise e =>
          io_log w' = io_log w ++ [EvOpenR src; EvClose src]
          ∧ warnings w' = warnings w ∧ r = Raise e
      | Ok driver =>
          let open_w :=
            EvOpenW dst (GetName driver)
              (<["geometry" := SStr "MultiLineString"]> (ds_schema ds))
              (ds_crs ds) (ds_encoding ds) in
          match fiona_open_w_error dst (GetName driver) with
          | Some e =>
              io_log w' = io_log w ++ [EvOpenR src; open_w; EvClose src]
              ∧ warnings w' = warnings w ∧ r = Raise e
          | None =>
              ∃ writes,
                io_log w'
                = io_log w ++ [EvOpenR src; open_w] ++ writes
                  ++ [EvClose dst; EvClose src]
                ∧ Forall (is_write_to dst) writes
          end
      end
  end.
Proof.
  cbn zeta. destruct (files w !! src) as [ds|] eqn:Hsrc.
  2:{ by rewrite create_centerlines_no_source. }
  pose proof (get_ogr_driver_resolved dst w) as Hdrv.
  destruct (resolved _ _) as [driver|e]; rewrite Hdrv; cbn [snd].
  2:{ rewrite (create_centerlines_no_driver _ _ _ _ _ _ Hsrc Hdrv). cbn.
      by rewrite <- app_assoc. }
  destruct (fiona_open_w_error dst (GetName driver)) as [e|] eqn:Hopen.
  { rewrite (create_centerlines_refused _ _ _ _ _ _ _ Hsrc Hdrv Hopen). cbn.
    by rewrite <- !app_assoc. }
  rewrite (create_centerlines_run _ _ _ _ _ _ Hsrc Hdrv Hopen). cbn zeta.
  destruct (for_each _ _ _) as [w2 r] eqn:Hrun.
  apply for_each_opened in Hrun as (n & evs & _ & _ & _ & Hlog & Hevs).
  exists evs. split; [|done]. cbn. rewrite Hlog. by rewrite <- !app_assoc.
Qed.


(** X3. When a run returns normally, every source feature is accounted
    for exactly once: the destination holds the output records of the
    converted features, the warnings added are the exceptions of the
    skipped ones, both in source order, their numbers add up to the number
    of source features, and the writes issued are those of the records
    the destination holds. *)
Theorem normal_return_accounts_for_every_feature src dst density w ds
    driver :
  files w !! src = Some ds →
  get_ogr_driver dst w = (w, Ok driver) →
  fiona_open_w_error dst (GetName driver) = None →
  (create_centerlines src dst density w).2 = Ok tt →
  let w' := (create_centerlines src dst density w).1 in
  ∃ out ws,
    files w' !! dst = Some out
    ∧ ds_records out = omap (converted density) (ds_records ds)
    ∧ warnings w' = warnings w ++ ws
    ∧ ws = omap (skipped density) (ds_records ds)
    ∧ Forall (λ e, exn_class e = "InvalidInputTypeError"
                   ∨ exn_class e = "TooFewRidgesError") ws
    ∧ (length (ds_records out) + length ws = length (ds_records ds))%nat
    ∧ io_log w'
      = io_log w
        ++ [EvOpenR src;
            EvOpenW dst (GetName driver)
              (<["geometry" := SStr "MultiLineString"]> (ds_schema ds))
              (ds_crs ds) (ds_encoding ds)]
        ++ (EvWrite dst <$> ds_records out)
        ++ [EvClose dst; EvClose src].
Proof.
  intros Hsrc Hdrv Hopen.
  rewrite (create_centerlines_run _ _ _ _ _ _ Hsrc Hdrv Hopen). cbn zeta.
  destruct (for_each _ _ _) as [w2 r] eqn:Hrun. cbn [fst snd].
  intros ->. apply for_each_ok in Hrun as (-> & Hlen & Hall).
  eexists _, _. cbn [add_event files warnings io_log opened set_files fst].
  split_and!.
  - by rewrite lookup_alter_eq, lookup_insert_eq.
  - done.
  - done.
  - done.
  - eapply Forall_impl; [exact Hall|]. intros e He. unfold caught in He.
    apply elem_of_cons in He as [?|He]; [by left|].
    apply elem_of_cons in He as [?|He]; [by right|].
    by apply elem_of_nil in He.
  - exact Hlen.
  - cbn. by rewrite <- !app_assoc.
Qed.

(** X5. The run stops at the first feature whose step raises: when the
    loop over the features before it returns normally and leaves the
    world [w1], and the step of the feature raises [e] in [w1], the run
    raises [e]; the destination keeps the output records of the converted
    features before it, the warnings of the skipped ones before it are
    logged, and nothing of the features after it is there. *)
Theorem first_failing_feature_aborts src dst density w ds driver
    (pre post : list (Feature Geometry Value)) rec e w1 :
  files w !! src = Some ds →
  get_ogr_driver dst w = (w, Ok driver) →
  fiona_open_w_error dst (GetName driver) = None →
  ds_records ds = pre ++ rec :: post →
  let dest :=
    (dst, <["geometry" := SStr "MultiLineString"]> (ds_schema ds)) in
  for_each pre (process_record dest density) (opened src dst driver ds w)
  = (w1, Ok tt) →
  (process_record dest density rec w1).2 = Raise e →
  let w' := (create_centerlines src dst density w).1 in
  (create_centerlines src dst density w).2 = Raise e
  ∧ (ds_records <$> files w' !! dst) = Some (omap (converted density) pre)
  ∧ warnings w' = warnings w ++ omap (skipped density) pre.
Proof.
  intros Hsrc Hdrv Hopen Hrecs dest Hpre Hrec.
  rewrite (create_centerlines_run _ _ _ _ _ _ Hsrc Hdrv Hopen). cbn zeta.
  rewrite Hrecs. fold dest. rewrite for_each_app, Hpre, for_each_cons.
  destruct (process_record dest density rec w1) as [w2 r2] eqn:Hstep.
  cbn [snd] in Hrec. subst r2.
  apply process_record_raise_frame in Hstep as [Hfiles Hwarn].
  apply for_each_ok in Hpre as (-> & _ & _).
  cbn [fst snd add_event files warnings]. rewrite Hfiles, Hwarn. cbn.
  split_and!; [done| |done].
  by rewrite lookup_alter_eq, lookup_insert_eq.
Qed.

(** X7. Only the constructor call is guarded: an exception raised while
    the geometry of the feature is decoded, or while the centerline is
    encoded, leaves the step whatever its class, also when the class is
    one of the two the handler names; nothing is logged and nothing is
    written. *)
Theorem decode_and_encode_errors_are_not_caught dest density rec w e :
  shape (geometry rec) = Raise e
  ∨ (∃ input_geom obj,
       shape (geometry rec) = Ok input_geom
       ∧ call_Centerline input_geom density (properties rec) = Ok obj
       ∧ mapping obj = Raise e) →
  process_record dest density rec w = (w, Raise e)
  ∧ ∀ recs, for_each (rec :: recs) (process_record dest density) w
            = (w, Raise e).
Proof.
  intros Hcase.
  assert (Hstep : process_record dest density rec w = (w, Raise e)).
  { destruct Hcase as [Hs|(input_geom & obj & Hs & Hc & Hm)].
    - by apply process_record_shape_raise.
    - by eapply process_record_mapping_raise. }
  split; [done|]. intros recs. by rewrite for_each_cons, Hstep.
Qed.

(** X8. When the object the constructor returns stores every attribute it
    was given under the same name and with the same value, the record
    written has exactly the properties of the source feature. *)
Theorem republished_attributes_round_trip dest density rec w input_geom
    obj geom' :
  shape (geometry rec) = Ok input_geom →
  call_Centerline input_geom density (properties rec) = Ok obj →
  mapping obj = Ok geom' →
  properties rec ⊆ obj_dict obj →
  process_record dest density rec w
  = fiona_write dest (mkFeature geom' (properties rec)) w
  ∧ converted density rec = Some (mkFeature geom' (properties rec)).
Proof.
  intros Hs Hc Hm Hsub.
  assert (kept_properties obj (properties rec) = properties rec) as Hkept.
  { apply map_eq. intros k. unfold kept_properties.
    destruct (properties rec !! k) as [v|] eqn:Hk.
    - apply map_lookup_filter_Some.
      split; [by eapply lookup_weaken | cbn; rewrite Hk; eauto].
    - apply map_lookup_filter_None. right. intros v _. cbn. rewrite Hk.
      by intros [? ?]. }
  split.
  - by rewrite (process_record_write _ _ _ _ _ _ _ Hs Hc Hm), Hkept.
  - unfold converted. by rewrite Hs, Hc, Hm, Hkept.
Qed.

(** X9. The schema of the destination has the keys of the source schema
    and ["geometry"], also when the source schema had no such key; when
    the source is already of type ["MultiLineString"], the destination
    has the schema of the source unchanged. *)
Theorem schema_derivation_adds_and_keeps src dst density w ds driver :
  files w !! src = Some ds →
  get_ogr_driver dst w = (w, Ok driver) →
  fiona_open_w_error dst (GetName driver) = None →
  ∃ out,
    files (create_centerlines src dst density w).1 !! dst = Some out
    ∧ dom (ds_schema out) = {["geometry"]} ∪ dom (ds_schema ds)
    ∧ (ds_schema ds !! "geometry" = Some (SStr "MultiLineString") →
       ds_schema out = ds_schema ds).
Proof.
  intros Hsrc Hdrv Hopen.
  rewrite (create_centerlines_run _ _ _ _ _ _ Hsrc Hdrv Hopen). cbn zeta.
  destruct (for_each _ _ _) as [w2 r] eqn:Hrun.
  apply for_each_opened in Hrun as (n & evs & _ & _ & Hfile & _).
  eexists. cbn [fst add_event files]. split; [exact Hfile|].
  cbn [ds_schema]. split.
  - apply dom_insert_L.
  - apply insert_id.
Qed.

(** X10. A source without features still creates the destination: the
    run returns normally, the destination is there with the name of the
    driver, the derived schema, the crs and the encoding of the source
    and no record, and no warning is logged. *)
Theorem empty_source_creates_empty_destination src dst density w ds driver :
  files w !! src = Some ds →
  ds_records ds = [] →
  get_ogr_driver dst w = (w, Ok driver) →
  fiona_open_w_error dst (GetName driver) = None →
  let w' := (create_centerlines src dst density w).1 in
  (create_centerlines src dst density w).2 = Ok tt
  ∧ files w' !! dst
    = Some (mkDataset (GetName driver)
              (<["geometry" := SStr "MultiLineString"]> (ds_schema ds))
              (ds_crs ds) (ds_encoding ds) [])
  ∧ warnings w' = warnings w.
Proof.
  intros Hsrc Hrecs Hdrv Hopen.
  rewrite (create_centerlines_run _ _ _ _ _ _ Hsrc Hdrv Hopen). cbn zeta.
  rewrite Hrecs. cbn. split_and!; [done| |done].
  apply lookup_insert_eq.
Qed.

End OrchestratorFacts.

(** * The properties at the sample instance *)

Import Sample.

Example resolver_is_case_sensitive :
  (get_ogr_driver "out.SHP" world).2
  = Raise (InvalidInputTypeError
             "No driver found for the following file extension: SHP").
Proof. reflexivity. Qed.

(** ["hz"] is no extension of the shapefile driver, but it occurs inside
    its list of extensions. *)
Example resolver_matches_inside_a_token :
  (get_ogr_driver "out.hz" world).2 = Ok shapefile.
Proof. reflexivity. Qed.

Example resolver_takes_the_first_of_two :
  (get_ogr_driver "out.json" world).2 = Ok geojson
  ∧ (get_ogr_driver "out.json"
       (mkWorld (mkDriver "JSONFG" {[ "DMD_EXTENSION" := "json" ]} :: drivers)
          ∅ [] [])).2
    = Ok (mkDriver "JSONFG" {[ "DMD_EXTENSION" := "json" ]}).
Proof. split; reflexivity. Qed.

(** The extension of C5 at a path with dots in a directory and in the
    file name. *)
Lemma get_ogr_driver_first_match_witness :
  lacks "/" "ut.tar" ∧ lacks "." "gz" ∧ lacks "/" "gz"
  ∧ EXTENSION_of "dir.d/out.tar.gz" = "gz".
Proof.
  assert (H1 : lacks "/" "ut.tar") by (apply lacks_rfind; reflexivity).
  assert (H2 : lacks "." "gz") by (apply lacks_rfind; reflexivity).
  assert (H3 : lacks "/" "gz") by (apply lacks_rfind; reflexivity).
  split_and!; [exact H1|exact H2|exact H3|].
  destruct (get_ogr_driver_first_match
              (H := sample_collaborators) "dir.d/out.tar.gz" world)
    as (_ & _ & Hext & _).
  apply (Hext "dir.d/" "o"%char "ut.tar" "gz"); [reflexivity| | |exact H1|exact H2|exact H3];
    discriminate.
Defined.

(** Witness of C1. *)
Lemma unmatched_extension_aborts_before_writing_witness :
  (∀ d, d ∈ ogr_drivers world →
        driver_matches (EXTENSION_of "out.xyz") d = false)
  ∧ get_ogr_driver "out.xyz" world
    = (world,
       Raise (mkExn "InvalidInputTypeError"
                "No driver found for the following file extension: xyz"))
  ∧ files (create_centerlines "in.shp" "out.xyz" 5%Z world).1 = files world
  ∧ io_log (create_centerlines "in.shp" "out.xyz" 5%Z world).1
    = [EvOpenR "in.shp"; EvClose "in.shp"]
  ∧ (create_centerlines "in.shp" "out.xyz" 5%Z world).2
    = Raise (mkExn "InvalidInputTypeError"
               "No driver found for the following file extension: xyz").
Proof.
  assert (Hno : ∀ d, d ∈ ogr_drivers world →
                     driver_matches (EXTENSION_of "out.xyz") d = false).
  { apply Forall_forall. apply (bool_decide_unpack _). vm_compute.
    exact I. }
  destruct (unmatched_extension_aborts_before_writing
              (H := sample_collaborators) "in.shp" "out.xyz" 5%Z world Hno) as (H1 & H2 & H3 & H4).
  split_and!; [exact Hno|exact H1|exact H2|exact H3|].
  apply H4. vm_compute. eauto.
Defined.

(** At [out.xyz] no driver matches, and the exception is of class
    [InvalidInputTypeError], not of a class [UnsupportedFormatError]. *)
Lemma unmatched_extension_is_not_unsupported_format :
  (∀ d, d ∈ ogr_drivers world →
        driver_matches (EXTENSION_of "out.xyz") d = false)
  ∧ ∃ e, (get_ogr_driver "out.xyz" world).2 = Raise e
         ∧ exn_class e = "InvalidInputTypeError"
         ∧ exn_class e ≠ "UnsupportedFormatError".
Proof.
  split.
  - apply Forall_forall. apply (bool_decide_unpack _). vm_compute. exact I.
  - eexists. split_and!; [reflexivity|reflexivity|discriminate].
Qed.

(** Witness of C2. *)
Lemma output_properties_are_the_intersection_witness :
  shape (geometry polygon) = Ok "Polygon"
  ∧ call_Centerline "Polygon" 5%Z (properties polygon)
    = Ok ("MultiLineString",
          <["_interpolation_distance" := 5%Z]>
            (<["_min_x" := 0%Z]> (properties polygon)))
  ∧ process_record destination 5%Z polygon world
    = fiona_write destination out_polygon world
  ∧ dom (properties out_polygon) = {[ "id"; "name" ]}
  ∧ properties out_polygon !! "_min_x" = None.
Proof.
  split; [reflexivity|]. split; [reflexivity|].
  destruct (output_properties_are_the_intersection
              (H := sample_collaborators) destination 5%Z polygon world "Polygon"
              ("MultiLineString",
               <["_interpolation_distance" := 5%Z]>
                 (<["_min_x" := 0%Z]> (properties polygon)))
              "MultiLineString" eq_refl eq_refl eq_refl)
    as (out & Hstep & Hconv & _ & _ & _ & Hdrop & _).
  assert (out = out_polygon) as ->.
  { apply (inj Some). rewrite <- Hconv. reflexivity. }
  split_and!; [exact Hstep| |apply Hdrop].
  - reflexivity.
  - reflexivity.
Defined.

(** Witness of C3. *)
Lemma caught_errors_skip_the_feature_witness :
  shape (geometry sliver) = Ok "Sliver"
  ∧ call_Centerline "Sliver" 5%Z (properties sliver)
    = Raise (TooFewRidgesError "Number of produced ridges is too small")
  ∧ ∃ w',
      process_record destination 5%Z sliver world = (w', Ok tt)
      ∧ warnings w'
        = [TooFewRidgesError "Number of produced ridges is too small"]
      ∧ files w' = files world
      ∧ io_log w' = io_log world
      ∧ for_each [sliver; point] (process_record destination 5%Z) world
        = for_each [point] (process_record destination 5%Z) w'.
Proof.
  split; [reflexivity|]. split; [reflexivity|].
  destruct (caught_errors_skip_the_feature
              (H := sample_collaborators) destination 5%Z sliver [point]
              world "Sliver"
              (TooFewRidgesError "Number of produced ridges is too small")
              eq_refl eq_refl (or_intror eq_refl))
    as (w' & Hstep & Hw & Hf & Hlog & _ & _ & Hloop).
  exists w'. split_and!; [exact Hstep|exact Hw|exact Hf|exact Hlog|exact Hloop].
Defined.

(** Witness of C4. *)
Lemma output_schema_only_retypes_geometry_witness :
  files world !! "in.shp" = Some source
  ∧ get_ogr_driver "out.geojson" world = (world, Ok geojson)
  ∧ fiona_open_w_error "out.geojson" (GetName geojson) = None
  ∧ ∃ out,
      files (create_centerlines "in.shp" "out.geojson" 5%Z world).1
        !! "out.geojson" = Some out
      ∧ ds_schema out = derived_schema
      ∧ ds_schema out !! "properties"
        = Some (SFields [("id", "int"); ("name", "str")]).
Proof.
  assert (Hsrc : files world !! "in.shp" = Some source)
    by reflexivity.
  assert (Hdrv : get_ogr_driver "out.geojson" world = (world, Ok geojson))
    by reflexivity.
  split_and!; [exact Hsrc|exact Hdrv|reflexivity|].
  destruct (output_schema_only_retypes_geometry
              (H := sample_collaborators)
              "in.shp" "out.geojson" 5%Z world source geojson
              Hsrc Hdrv eq_refl)
    as (out & Hout & Hschema & _ & _ & Hfields).
  exists out. split_and!; [exact Hout| |].
  - rewrite Hschema. reflexivity.
  - apply Hfields. reflexivity.
Defined.

(** Witness of C6. *)
Lemma output_order_follows_source_order_witness :
  files world !! "in.shp" = Some source
  ∧ get_ogr_driver "out.geojson" world = (world, Ok geojson)
  ∧ fiona_open_w_error "out.geojson" (GetName geojson) = None
  ∧ ∃ out,
      files (create_centerlines "in.shp" "out.geojson" 5%Z world).1
        !! "out.geojson" = Some out
      ∧ ds_records out = [out_polygon; out_multipolygon].
Proof.
  assert (Hsrc : files world !! "in.shp" = Some source)
    by reflexivity.
  assert (Hdrv : get_ogr_driver "out.geojson" world = (world, Ok geojson))
    by reflexivity.
  split_and!; [exact Hsrc|exact Hdrv|reflexivity|].
  destruct (output_order_follows_source_order
              (H := sample_collaborators)
              "in.shp" "out.geojson" 5%Z world source geojson
              Hsrc Hdrv eq_refl)
    as (out & succ & Hout & _ & _ & Hall).
  exists out. split; [exact Hout|].
  destruct Hall as [_ Hrecs]; [reflexivity|].
  etrans; [exact Hrecs|reflexivity].
Defined.

(** Witness of C7. *)
Lemma destination_opened_once_witness :
  files world !! "in.shp" = Some source
  ∧ get_ogr_driver "out.geojson" world = (world, Ok geojson)
  ∧ ∃ evs,
      io_log (create_centerlines "in.shp" "out.geojson" 5%Z world).1
      = io_log world ++ evs
      ∧ filter (λ ev, is_open_w ev = true) evs
        = [EvOpenW "out.geojson" "GeoJSON" derived_schema "EPSG:4326"
             "utf-8"].
Proof.
  assert (Hsrc : files world !! "in.shp" = Some source)
    by reflexivity.
  assert (Hdrv : get_ogr_driver "out.geojson" world = (world, Ok geojson))
    by reflexivity.
  split_and!; [exact Hsrc|exact Hdrv|].
  destruct (destination_opened_once
              (H := sample_collaborators)
              "in.shp" "out.geojson" 5%Z world source geojson Hsrc Hdrv)
    as (evs & Hlog & Hopen & _).
  exists evs. split; [exact Hlog|].
  rewrite Hopen. reflexivity.
Defined.

(** Witness of C8. *)
Lemma get_ogr_driver_deterministic_witness :
  ogr_drivers later_world = ogr_drivers world
  ∧ (get_ogr_driver "out.geojson" world).1 = world
  ∧ (get_ogr_driver "out.geojson" later_world).1 = later_world
  ∧ (get_ogr_driver "out.geojson" later_world).2
    = (get_ogr_driver "out.geojson" world).2
  ∧ get_ogr_driver "out.geojson" (get_ogr_driver "out.geojson" world).1
    = get_ogr_driver "out.geojson" world.
Proof.
  split; [reflexivity|].
  apply (get_ogr_driver_deterministic
           (H := sample_collaborators) "out.geojson" world later_world).
  reflexivity.
Defined.

(** Witness of C9. *)
Lemma get_ogr_driver_empty_extension_witness :
  EXTENSION_of "out." = ""
  ∧ ogr_drivers world !! 0 = Some pcidsk
  ∧ get_ogr_driver "out." world = (world, Ok pcidsk).
Proof.
  split_and!; [reflexivity|reflexivity|].
  apply (get_ogr_driver_empty_extension
           (H := sample_collaborators) "out." world pcidsk);
    reflexivity.
Defined.

(** The claim C9 as written does not hold: with an empty extension and a
    registry that has no driver, the resolver raises. *)
Lemma empty_extension_raises_without_drivers :
  EXTENSION_of "out" = ""
  ∧ ∃ e, get_ogr_driver "out" no_drivers = (no_drivers, Raise e).
Proof. split; [reflexivity|]. eexists. reflexivity. Qed.

(** Witness of C10. *)
Lemma duplicate_keyword_aborts_the_run_witness :
  shape (geometry clash) = Ok "Polygon"
  ∧ (is_Some (properties clash !! "input_geom")
     ∨ is_Some (properties clash !! "interpolation_dist"))
  ∧ ∃ e,
      exn_class e = "TypeError"
      ∧ process_record destination 5%Z clash world = (world, Raise e)
      ∧ (create_centerlines "clash.shp" "out.geojson" 5%Z world).2
        = Raise e
      ∧ (ds_records
           <$> files (create_centerlines "clash.shp" "out.geojson" 5%Z
                        world).1 !! "out.geojson")
        = Some [out_polygon].
Proof.
  assert (Hkey : is_Some (properties clash !! "input_geom")
                 ∨ is_Some (properties clash !! "interpolation_dist")).
  { right. vm_compute. eauto. }
  split_and!; [reflexivity|exact Hkey|].
  destruct (duplicate_keyword_aborts_the_run
              (H := sample_collaborators) destination 5%Z clash
              (for_each [polygon]
                 (process_record (H := sample_collaborators) destination
                    5%Z)
                 (opened (H := sample_collaborators) "clash.shp"
                    "out.geojson" geojson clash_source world)).1
              "Polygon" eq_refl Hkey)
    as (e & Hc & Hcls & _ & _ & _ & Hrun).
  destruct (duplicate_keyword_aborts_the_run
              (H := sample_collaborators) destination 5%Z clash
              world "Polygon" eq_refl Hkey)
    as (e' & Hc' & _ & _ & Hstep & _ & _).
  assert (e' = e) as -> by congruence.
  exists e. split_and!; [exact Hcls|exact Hstep| |].
  - rewrite (Hrun "clash.shp" "out.geojson" world clash_source geojson
               [polygon] [multipolygon]); reflexivity.
  - rewrite (Hrun "clash.shp" "out.geojson" world clash_source geojson
               [polygon] [multipolygon]);
      reflexivity.
Defined.

(** Witness of X3. *)
Lemma normal_return_accounts_for_every_feature_witness :
  files world !! "in.shp" = Some source
  ∧ get_ogr_driver "out.geojson" world = (world, Ok geojson)
  ∧ (create_centerlines "in.shp" "out.geojson" 5%Z world).2 = Ok tt
  ∧ ∃ out ws,
      files (create_centerlines "in.shp" "out.geojson" 5%Z world).1
        !! "out.geojson" = Some out
      ∧ warnings (create_centerlines "in.shp" "out.geojson" 5%Z world).1
        = ws
      ∧ length (ds_records out) = 2
      ∧ length ws = 2.
Proof.
  assert (Hsrc : files world !! "in.shp" = Some source) by reflexivity.
  assert (Hdrv : get_ogr_driver "out.geojson" world = (world, Ok geojson))
    by reflexivity.
  assert (Hok : (create_centerlines "in.shp" "out.geojson" 5%Z world).2
                = Ok tt) by reflexivity.
  split_and!; [exact Hsrc|exact Hdrv|exact Hok|].
  destruct (normal_return_accounts_for_every_feature
              (H := sample_collaborators)
              "in.shp" "out.geojson" 5%Z world source geojson
              Hsrc Hdrv eq_refl Hok)
    as (out & ws & Hout & Hrecs & Hws & Hskip & _ & _ & _).
  exists out, ws. split_and!; [exact Hout|exact Hws| |].
  - rewrite Hrecs. reflexivity.
  - rewrite Hskip. reflexivity.
Defined.

(** Witness of X5. *)
Lemma first_failing_feature_aborts_witness :
  files other_world !! "null.shp" = Some null_source
  ∧ ds_records null_source = [polygon; sliver] ++ null_feature :: [multipolygon]
  ∧ (for_each [polygon; sliver] (process_record destination 5%Z)
       (opened "null.shp" "out.geojson" geojson null_source other_world)).2
    = Ok tt
  ∧ (create_centerlines "null.shp" "out.geojson" 5%Z other_world).2
    = Raise (AttributeError "'NoneType' object has no attribute 'get'")
  ∧ (ds_records
       <$> files (create_centerlines "null.shp" "out.geojson" 5%Z
                    other_world).1 !! "out.geojson")
    = Some [out_polygon]
  ∧ length (warnings (create_centerlines "null.shp" "out.geojson" 5%Z
                        other_world).1) = 1.
Proof.
  split_and!; [reflexivity|reflexivity|reflexivity|..].
  all: destruct (first_failing_feature_aborts
              (H := sample_collaborators)
              "null.shp" "out.geojson" 5%Z other_world null_source geojson
              [polygon; sliver] [multipolygon] null_feature
              (AttributeError "'NoneType' object has no attribute 'get'")
              (for_each [polygon; sliver]
                 (process_record (H := sample_collaborators) destination
                    5%Z)
                 (opened (H := sample_collaborators) "null.shp"
                    "out.geojson" geojson null_source other_world)).1
              eq_refl eq_refl eq_refl eq_refl eq_refl eq_refl)
    as (Hr & Hout & Hws).
  - exact Hr.
  - etrans; [exact Hout|reflexivity].
  - rewrite Hws. reflexivity.
Defined.

(** Witness of X7. *)
Lemma decode_and_encode_errors_are_not_caught_witness :
  shape (geometry null_feature)
  = Raise (AttributeError "'NoneType' object has no attribute 'get'")
  ∧ process_record destination 5%Z null_feature world
    = (world,
       Raise (AttributeError "'NoneType' object has no attribute 'get'"))
  ∧ for_each [null_feature; polygon] (process_record destination 5%Z) world
    = (world,
       Raise (AttributeError "'NoneType' object has no attribute 'get'")).
Proof.
  split; [reflexivity|].
  destruct (decode_and_encode_errors_are_not_caught
              (H := sample_collaborators) destination 5%Z null_feature
              world
              (AttributeError "'NoneType' object has no attribute 'get'")
              (or_introl eq_refl)) as [Hstep Hloop].
  split; [exact Hstep|exact (Hloop [polygon])].
Defined.

(** Witness of X8. *)
Lemma republished_attributes_round_trip_witness :
  shape (geometry polygon) = Ok "Polygon"
  ∧ properties polygon
    ⊆ <["_interpolation_distance" := 5%Z]>
        (<["_min_x" := 0%Z]> (properties polygon))
  ∧ process_record destination 5%Z polygon world
    = fiona_write destination
        (mkFeature "MultiLineString" (properties polygon)) world.
Proof.
  assert (Hsub : properties polygon
                 ⊆ <["_interpolation_distance" := 5%Z]>
                     (<["_min_x" := 0%Z]> (properties polygon))).
  { etrans; apply insert_subseteq; reflexivity. }
  split_and!; [reflexivity|exact Hsub|].
  apply (republished_attributes_round_trip
           (H := sample_collaborators) destination 5%Z polygon world
           "Polygon"
           ("MultiLineString",
            <["_interpolation_distance" := 5%Z]>
              (<["_min_x" := 0%Z]> (properties polygon)))
           "MultiLineString" eq_refl eq_refl eq_refl Hsub).
Defined.

(** Witness of X9. *)
Lemma schema_derivation_adds_and_keeps_witness :
  files other_world !! "lines.json" = Some lines_source
  ∧ get_ogr_driver "out.shp" other_world = (other_world, Ok shapefile)
  ∧ ds_schema lines_source !! "geometry" = Some (SStr "MultiLineString")
  ∧ ∃ out,
      files (create_centerlines "lines.json" "out.shp" 5%Z other_world).1
        !! "out.shp" = Some out
      ∧ ds_schema out = ds_schema lines_source.
Proof.
  split_and!; [reflexivity|reflexivity|reflexivity|].
  destruct (schema_derivation_adds_and_keeps
              (H := sample_collaborators)
              "lines.json" "out.shp" 5%Z other_world lines_source shapefile
              eq_refl eq_refl eq_refl)
    as (out & Hout & _ & Hkeep).
  exists out. split; [exact Hout|]. apply Hkeep. reflexivity.
Defined.

(** Witness of X10. *)
Lemma empty_source_creates_empty_destination_witness :
  files other_world !! "empty.shp" = Some empty_source
  ∧ ds_records empty_source = []
  ∧ get_ogr_driver "out.geojson" other_world = (other_world, Ok geojson)
  ∧ (create_centerlines "empty.shp" "out.geojson" 5%Z other_world).2
    = Ok tt
  ∧ files (create_centerlines "empty.shp" "out.geojson" 5%Z other_world).1
      !! "out.geojson"
    = Some (mkDataset "GeoJSON" derived_schema "EPSG:3857" "latin-1" []).
Proof.
  split_and!; [reflexivity|reflexivity|reflexivity|..].
  all: destruct (empty_source_creates_empty_destination
              (H := sample_collaborators)
              "empty.shp" "out.geojson" 5%Z other_world empty_source geojson
              eq_refl eq_refl eq_refl eq_refl)
    as (Hr & Hout & _).
  - exact Hr.
  - etrans; [exact Hout|reflexivity].
Defined.

(** Witness of X12. *)
Lemma part_of_a_listed_extension_resolves_witness :
  shapefile ∈ ogr_drivers world
  ∧ PyStr.contains "shz"
      (default "" (drv_metadata shapefile !! "DMD_EXTENSIONS")) = true
  ∧ PyStr.contains (EXTENSION_of "out.hz") "shz" = true
  ∧ driver_matches (EXTENSION_of "out.hz") shapefile = true
  ∧ ∃ d', get_ogr_driver "out.hz" world = (world, Ok d').
Proof.
  assert (Hin : shapefile ∈ ogr_drivers world).
  { apply (list_elem_of_lookup_2 _ 1). reflexivity. }
  split_and!; [exact Hin|reflexivity|reflexivity|..].
  all: destruct (part_of_a_listed_extension_resolves
              (H := sample_collaborators) "out.hz" "shz" world shapefile
              Hin eq_refl eq_refl) as [Hm Hex].
  - exact Hm.
  - exact Hex.
Defined.

(** Witness of X13. *)
Lemma registry_growth_keeps_resolution_witness :
  get_ogr_driver "out.geojson" world = (world, Ok geojson)
  ∧ ogr_drivers grown_world = ogr_drivers world ++ [gpkg]
  ∧ get_ogr_driver "out.geojson" grown_world = (grown_world, Ok geojson)
  ∧ ogr_drivers shifted_world = [gpkg] ++ ogr_drivers world
  ∧ (∀ d, d ∈ [gpkg] → driver_matches (EXTENSION_of "out.xyz") d = false)
  ∧ (get_ogr_driver "out.xyz" shifted_world).2
    = (get_ogr_driver "out.xyz" world).2.
Proof.
  assert (Hno : ∀ d, d ∈ [gpkg] →
                     driver_matches (EXTENSION_of "out.xyz") d = false).
  { intros d Hd. apply list_elem_of_singleton in Hd as ->. reflexivity. }
  split_and!; [reflexivity|reflexivity| |reflexivity|exact Hno|].
  - apply (registry_growth_keeps_resolution
             (H := sample_collaborators) "out.geojson" world grown_world
             [gpkg]); reflexivity.
  - apply (registry_growth_keeps_resolution
             (H := sample_collaborators) "out.xyz" world shifted_world
             [gpkg]); [reflexivity|exact Hno].
Defined.
